(** * lightning-faucet: the embedded resource store and the server launcher

    A shallow embedding of [internal/static/static.go] (the in-memory
    resource store) and of package [main] (template resolution, route
    registration, listener start-up), with the properties of the design
    document stated and proved over it. *)

From Stdlib Require Import ZArith Ascii.
From Stdlib Require Import Strings.String Strings.Byte.
From stdpp Require Import gmap strings list fin_maps.

Local Open Scope string_scope.

(** Go's [[]byte]. *)
Abbreviation bytes := (list Byte.byte).

(** The conversions [[]byte(s)] and [string(b)]. *)
Definition bytes_of (s : string) : bytes := list_byte_of_string s.
Definition string_of (b : bytes) : string := string_of_list_byte b.

(* ===================================================================== *)
(** ** Package [static] *)
(* ===================================================================== *)

Module static.

(** [type storage struct { assets, templates map[string][]byte }] *)
Record storage : Type := mkStorage {
  assets : gmap string bytes;
  templates : gmap string bytes
}.

(** [newStorage]: both maps freshly made, hence empty. *)
Definition newStorage : storage :=
  {| assets := ∅; templates := ∅ |}.

(** [(s *storage).Add]: the receiver is mutated in place; here the
    updated storage is returned. *)
Definition Add (s : storage) (filetype filepath : string) (content : bytes)
  : storage :=
  if String.eqb filetype "static"
  then {| assets := <[filepath := content]> (assets s);
          templates := templates s |}
  else {| assets := assets s;
          templates := <[filepath := content]> (templates s) |}.

(** [(s *storage).Assets] and [(s *storage).Templates] hand out the map
    itself, not a copy. *)
Definition Assets (s : storage) : gmap string bytes := assets s.
Definition Templates (s : storage) : gmap string bytes := templates s.

(** One call of the package-level [Add]. *)
Record call : Type := mkCall {
  c_filetype : string;
  c_filepath : string;
  c_content : bytes
}.

(** The package keeps one global [var s = newStorage()]; the package
    functions [Add], [Assets] and [Templates] forward to it.  [run s cs]
    is that global after the package-level [Add] calls [cs], made in
    order, starting from [s]. *)
Definition run (s : storage) (cs : list call) : storage :=
  foldl (fun acc c => Add acc (c_filetype c) (c_filepath c) (c_content c))
        s cs.

End static.

(* ===================================================================== *)
(** ** Go strings *)
(* ===================================================================== *)

(** The slice expression [s[n:]]; [None] is the run-time panic
    "slice bounds out of range" raised when [n > len(s)]. *)
Fixpoint sliceFrom (n : nat) (s : string) : option string :=
  match n, s with
  | O, _ => Some s
  | S n', String _ rest => sliceFrom n' rest
  | S _, EmptyString => None
  end.

(** [strings.Split(s, sep)] for a one-byte separator: the pieces of [s]
    between the occurrences of [sep]; never an empty slice. *)
Fixpoint Split (s : string) (sep : ascii) : list string :=
  match s with
  | EmptyString => [EmptyString]
  | String c rest =>
      if Ascii.eqb c sep then EmptyString :: Split rest sep
      else match Split rest sep with
           | seg :: segs => String c seg :: segs
           | [] => [String c EmptyString]
           end
  end.

(** [filepath.Ext(name)]: the suffix of [name] that starts at the last
    dot of its last path element, empty when there is none. *)
Fixpoint Ext (name : string) : string :=
  match name with
  | EmptyString => EmptyString
  | String c rest =>
      if Ascii.eqb c "/" then Ext rest
      else if Ascii.eqb c "."
      then (if existsb (fun d => Ascii.eqb d "." || Ascii.eqb d "/")
                       (list_ascii_of_string rest)
            then Ext rest else name)
      else Ext rest
  end.

(** The path with its leading separator stripped, in the words of the
    design document: a path that does not begin with the separator has
    nothing to strip. *)
Definition stripLeadingSeparator (path : string) : string :=
  match path with
  | String c rest => if Ascii.eqb c "/" then rest else path
  | EmptyString => path
  end.

(* ===================================================================== *)
(** ** Values handed to templates, and [equal] *)
(* ===================================================================== *)

#[local] Set Warnings "-register-all".

(** The values [equal] may receive through its [interface{}] parameters.
    Every value carries the name of its dynamic type.  A non-nil pointer is
    an instance: it carries its address next to the value it points to.
    Maps, channels, arrays and floating-point numbers are left out. *)
Inductive value : Type :=
| VNil                                              (* the nil interface *)
| VBool (ty : string) (b : bool)
| VInt (ty : string) (n : Z)
| VString (ty : string) (s : string)
| VSlice (ty : string) (elems : option (list value))      (* [None]: nil *)
| VStruct (ty : string) (fields : list value)
| VPtr (ty : string) (target : option (N * value))        (* [None]: nil *)
| VFunc (ty : string) (code : option N).                  (* [None]: nil *)

(** The elements of two slices, or the fields of two structs, compared
    one by one: the lengths agree and [eq] holds at every index. *)
Definition all2 {A : Type} (eq : A -> A -> bool)
  : list A -> list A -> bool :=
  fix go (l1 l2 : list A) : bool :=
    match l1, l2 with
    | [], [] => true
    | v1 :: l1', v2 :: l2' => eq v1 v2 && go l1' l2'
    | _, _ => false
    end.

(** [reflect.DeepEqual], by the rules of its documentation: values of
    distinct types are never deeply equal; booleans, numbers and strings
    are compared with [==]; slices are deeply equal when both are nil or
    both are non-nil with the same length and deeply equal elements;
    structs when their corresponding fields are; pointers when they are
    [==] or point to deeply equal values; funcs only when both are nil. *)
Fixpoint DeepEqual (x y : value) : bool :=
  match x, y with
  | VNil, VNil => true
  | VBool t1 b1, VBool t2 b2 => String.eqb t1 t2 && Bool.eqb b1 b2
  | VInt t1 n1, VInt t2 n2 => String.eqb t1 t2 && Z.eqb n1 n2
  | VString t1 s1, VString t2 s2 => String.eqb t1 t2 && String.eqb s1 s2
  | VSlice t1 e1, VSlice t2 e2 =>
      String.eqb t1 t2 &&
      match e1, e2 with
      | None, None => true
      | Some l1, Some l2 => all2 DeepEqual l1 l2
      | _, _ => false
      end
  | VStruct t1 f1, VStruct t2 f2 =>
      String.eqb t1 t2 && all2 DeepEqual f1 f2
  | VPtr t1 p1, VPtr t2 p2 =>
      String.eqb t1 t2 &&
      match p1, p2 with
      | None, None => true
      | Some (a1, v1), Some (a2, v2) => N.eqb a1 a2 || DeepEqual v1 v2
      | _, _ => false
      end
  | VFunc t1 c1, VFunc t2 c2 =>
      String.eqb t1 t2 &&
      match c1, c2 with
      | None, None => true
      | _, _ => false
      end
  | _, _ => false
  end.

(** [func equal(x, y interface{}) bool] *)
Definition equal (x y : value) : bool := DeepEqual x y.

(** The structure of a value: the value with the addresses of its
    instances forgotten. *)
Fixpoint structure (v : value) : value :=
  match v with
  | VSlice ty (Some l) => VSlice ty (Some (List.map structure l))
  | VStruct ty fs => VStruct ty (List.map structure fs)
  | VPtr ty (Some (_, p)) => VPtr ty (Some (0%N, structure p))
  | _ => v
  end.

(** The addresses of the instances a value is made of. *)
Fixpoint addresses (v : value) : list N :=
  match v with
  | VSlice _ (Some l) => List.concat (List.map addresses l)
  | VStruct _ fs => List.concat (List.map addresses fs)
  | VPtr _ (Some (a, p)) => a :: addresses p
  | _ => []
  end.

(** Two values are distinct instances when they share no address. *)
Definition distinctInstances (x y : value) : bool :=
  forallb (fun a => negb (existsb (N.eqb a) (addresses y))) (addresses x).

(** No non-nil func value occurs in the value. *)
Fixpoint funcFree (v : value) : bool :=
  match v with
  | VSlice _ (Some l) => forallb funcFree l
  | VStruct _ fs => forallb funcFree fs
  | VPtr _ (Some (_, p)) => funcFree p
  | VFunc _ (Some _) => false
  | _ => true
  end.

(** No address of [x] is an address of [y]. *)
Definition disjointAddresses (x y : value) : Prop :=
  forall a, In a (addresses x) -> In a (addresses y) -> False.


(** Induction over values, with the hypothesis available for every element
    of a slice, every field of a struct and the target of a pointer. *)
Section value_induction.

Variable P : value -> Prop.
Hypothesis HNil : P VNil.
Hypothesis HBool : forall ty b, P (VBool ty b).
Hypothesis HInt : forall ty n, P (VInt ty n).
Hypothesis HString : forall ty s, P (VString ty s).
Hypothesis HSliceNil : forall ty, P (VSlice ty None).
Hypothesis HSlice : forall ty l, Forall P l -> P (VSlice ty (Some l)).
Hypothesis HStruct : forall ty fs, Forall P fs -> P (VStruct ty fs).
Hypothesis HPtrNil : forall ty, P (VPtr ty None).
Hypothesis HPtr : forall ty a v, P v -> P (VPtr ty (Some (a, v))).
Hypothesis HFunc : forall ty c, P (VFunc ty c).

Fixpoint value_nested_ind (v : value) : P v :=
  let fix all (l : list value) : Forall P l :=
    match l with
    | [] => @List.Forall_nil _ P
    | x :: l' => @List.Forall_cons _ P x l' (value_nested_ind x) (all l')
    end in
  match v with
  | VNil => HNil
  | VBool ty b => HBool ty b
  | VInt ty n => HInt ty n
  | VString ty s => HString ty s
  | VSlice ty None => HSliceNil ty
  | VSlice ty (Some l) => HSlice ty l (all l)
  | VStruct ty fs => HStruct ty fs (all fs)
  | VPtr ty None => HPtrNil ty
  | VPtr ty (Some (a, p)) => HPtr ty a p (value_nested_ind p)
  | VFunc ty c => HFunc ty c
  end.

End value_induction.

(* ===================================================================== *)
(** ** Package [main]: configuration, router, listeners *)
(* ===================================================================== *)

(** The fields of the configuration that [main] reads. *)
Record config : Type := mkConfig {
  TemplatesDir : string;
  StaticDir : string;
  WipeChannels : bool;
  DisableGenerateInvoices : bool;
  DisablePayInvoices : bool;
  UseLeHTTPS : bool;
  BindAddr : string;
  Domain : string
}.

(** The handlers [main] attaches to routes.  The three pages are methods of
    the faucet, an external collaborator. *)
Inductive handler : Type :=
| faucetHome
| infoPage
| toolsPage
| staticHandler (dir : string)   (* StripPrefix("/static/", FileServer(Dir(dir))) *)
| assetHandler.                  (* the closure registered for an embedded asset *)

(** A gorilla/mux route: [Path] matches the request path exactly (the
    templates of [main] carry no variables), [PathPrefix] matches every
    path that starts with the prefix.  An empty method list accepts every
    method. *)
Inductive matcher : Type :=
| Path (tpl : string)
| PathPrefix (tpl : string).

Record route : Type := mkRoute {
  r_matcher : matcher;
  r_methods : list string;
  r_handler : handler
}.

Abbreviation router := (list route).

(** [r.HandleFunc(path, f)] and [r.HandleFunc(path, f).Methods(ms...)]
    append one route to the router. *)
Definition HandleFunc (r : router) (path : string) (ms : list string)
    (f : handler) : router :=
  r ++ [mkRoute (Path path) ms f].

(** [r.PathPrefix(tpl).Handler(h)] *)
Definition PathPrefixHandler (r : router) (tpl : string) (h : handler)
  : router :=
  r ++ [mkRoute (PathPrefix tpl) [] h].

(** [fmt.Sprintf("/static%v", filepath)] *)
Definition staticRoute (filepath : string) : string := "/static" ++ filepath.

(** The loop [for filepath := range static.Assets()] that registers one
    route per embedded asset; [keys] is the order in which [range] yields
    the keys of the map. *)
Definition registerAssets (r : router) (keys : list string) : router :=
  foldl (fun acc filepath => HandleFunc acc (staticRoute filepath) [] assetHandler)
        r keys.

(** Lines 95-126 of [main]: the router with the pages and the static
    files. *)
Definition registerRoutes (cfg : config) (keys : list string) : router :=
  let r := [] in
  let r := HandleFunc r "/" ["POST"; "GET"] faucetHome in
  let r := HandleFunc r "/info" ["GET"] infoPage in
  let r := if negb (DisableGenerateInvoices cfg && DisablePayInvoices cfg)
           then HandleFunc r "/tools" ["POST"; "GET"] toolsPage
           else r in
  if negb (String.eqb (StaticDir cfg) "")
  then PathPrefixHandler r "/static/" (staticHandler (StaticDir cfg))
  else registerAssets r keys.

(** An HTTP request: its method and [r.URL.Path].  Requests carry no
    range or precondition headers. *)
Record request : Type := mkRequest {
  Method : string;
  URLPath : string
}.

Definition matchPath (m : matcher) (path : string) : bool :=
  match m with
  | Path tpl => String.eqb tpl path
  | PathPrefix tpl => String.prefix tpl path
  end.

Definition matchMethod (ms : list string) (m : string) : bool :=
  match ms with
  | [] => true
  | _ => existsb (String.eqb m) ms
  end.

(** What the router does with a request. *)
Inductive dispatch : Type :=
| Handled (h : handler)
| NotFound                 (* 404 *)
| MethodNotAllowed.        (* 405 *)

(** The router's matching: the first route whose path and method both
    match handles the request; when none does the answer is 405 if some
    route matched the path but not the method, and 404 otherwise. *)
Fixpoint matchRoutes (rs : router) (req : request) (mismatch : bool)
  : dispatch :=
  match rs with
  | [] => if mismatch then MethodNotAllowed else NotFound
  | r :: rs' =>
      if matchPath (r_matcher r) (URLPath req)
      then if matchMethod (r_methods r) (Method req)
           then Handled (r_handler r)
           else matchRoutes rs' req true
      else matchRoutes rs' req mismatch
  end.

Definition Match (rs : router) (req : request) : dispatch :=
  matchRoutes rs req false.

(** What a handler has written to its [http.ResponseWriter]: the status
    ([None] while no header has been written), the Content-Type header
    and the body. *)
Record response : Type := mkResponse {
  status : option Z;
  contentType : option string;
  body : bytes
}.

Definition blank : response :=
  {| status := None; contentType := None; body := [] |}.

(** *** TLS and the HTTPS server *)

(** [tls.VersionTLS10] .. [tls.VersionTLS13] *)
Definition VersionTLS10 : Z := 0x0301.
Definition VersionTLS11 : Z := 0x0302.
Definition VersionTLS12 : Z := 0x0303.
Definition VersionTLS13 : Z := 0x0304.

(** Cipher suites of [crypto/tls]: the six that [main] names and the
    suites with a static RSA key exchange. *)
Inductive CipherSuite : Type :=
| TLS_RSA_WITH_RC4_128_SHA
| TLS_RSA_WITH_3DES_EDE_CBC_SHA
| TLS_RSA_WITH_AES_128_CBC_SHA
| TLS_RSA_WITH_AES_256_CBC_SHA
| TLS_RSA_WITH_AES_128_CBC_SHA256
| TLS_RSA_WITH_AES_128_GCM_SHA256
| TLS_RSA_WITH_AES_256_GCM_SHA384
| TLS_ECDHE_ECDSA_WITH_AES_128_GCM_SHA256
| TLS_ECDHE_ECDSA_WITH_AES_256_GCM_SHA384
| TLS_ECDHE_RSA_WITH_AES_128_GCM_SHA256
| TLS_ECDHE_RSA_WITH_AES_256_GCM_SHA384
| TLS_ECDHE_RSA_WITH_CHACHA20_POLY1305
| TLS_ECDHE_ECDSA_WITH_CHACHA20_POLY1305.

(** The [uint16] identifier of a suite. *)
Definition suiteID (c : CipherSuite) : Z :=
  match c with
  | TLS_RSA_WITH_RC4_128_SHA => 0x0005
  | TLS_RSA_WITH_3DES_EDE_CBC_SHA => 0x000a
  | TLS_RSA_WITH_AES_128_CBC_SHA => 0x002f
  | TLS_RSA_WITH_AES_256_CBC_SHA => 0x0035
  | TLS_RSA_WITH_AES_128_CBC_SHA256 => 0x003c
  | TLS_RSA_WITH_AES_128_GCM_SHA256 => 0x009c
  | TLS_RSA_WITH_AES_256_GCM_SHA384 => 0x009d
  | TLS_ECDHE_ECDSA_WITH_AES_128_GCM_SHA256 => 0xc02b
  | TLS_ECDHE_ECDSA_WITH_AES_256_GCM_SHA384 => 0xc02c
  | TLS_ECDHE_RSA_WITH_AES_128_GCM_SHA256 => 0xc02f
  | TLS_ECDHE_RSA_WITH_AES_256_GCM_SHA384 => 0xc030
  | TLS_ECDHE_RSA_WITH_CHACHA20_POLY1305 => 0xcca8
  | TLS_ECDHE_ECDSA_WITH_CHACHA20_POLY1305 => 0xcca9
  end.

(** The key exchange of a suite is ephemeral elliptic-curve
    Diffie-Hellman, which is what makes it forward secret. *)
Definition isECDHE (c : CipherSuite) : bool :=
  match c with
  | TLS_ECDHE_ECDSA_WITH_AES_128_GCM_SHA256
  | TLS_ECDHE_ECDSA_WITH_AES_256_GCM_SHA384
  | TLS_ECDHE_RSA_WITH_AES_128_GCM_SHA256
  | TLS_ECDHE_RSA_WITH_AES_256_GCM_SHA384
  | TLS_ECDHE_RSA_WITH_CHACHA20_POLY1305
  | TLS_ECDHE_ECDSA_WITH_CHACHA20_POLY1305 => true
  | _ => false
  end.

(** [time.Second], a [time.Duration] in nanoseconds. *)
Definition Second : Z := 1000000000.

(** [autocert.Manager], with the three fields [main] sets:
    [Prompt: autocert.AcceptTOS], [Cache: autocert.DirCache(dir)] and
    [HostPolicy: autocert.HostWhitelist(hosts...)]. *)
Record Manager : Type := mkManager {
  AcceptTOS : bool;
  DirCache : string;
  HostWhitelist : list string
}.

(** [tls.Config]; [GetCertificate] is the manager whose method it is. *)
Record tlsConfig : Type := mkTLSConfig {
  GetCertificate : Manager;
  MinVersion : Z;
  CipherSuites : list CipherSuite
}.

(** [http.Server] *)
Record Server : Type := mkServer {
  Handler : router;
  WriteTimeout : Z;
  ReadTimeout : Z;
  Addr : string;
  TLSConfig : tlsConfig
}.

(** What a plain listener serves: the router, or the manager's
    [HTTPHandler(nil)], which answers the certificate authority's
    challenges and redirects every other request to HTTPS. *)
Inductive serverHandler : Type :=
| Mux (r : router)
| HTTPHandler (m : Manager).

Inductive listener : Type :=
| ListenAndServe (addr : string) (h : serverHandler)
| ListenAndServeTLS (srv : Server).

(** The certificate manager of lines 139-147. *)
Definition certManager (cfg : config) : Manager :=
  {| AcceptTOS := true;
     DirCache := "certs";
     HostWhitelist := [Domain cfg] |}.

(** The server of lines 155-172. *)
Definition httpServer (cfg : config) (r : router) : Server :=
  let m := certManager cfg in
  {| Handler := r;
     WriteTimeout := 30 * Second;
     ReadTimeout := 30 * Second;
     Addr := ":https";
     TLSConfig :=
       {| GetCertificate := m;
          MinVersion := VersionTLS12;
          CipherSuites :=
            [ TLS_ECDHE_ECDSA_WITH_CHACHA20_POLY1305;
              TLS_ECDHE_ECDSA_WITH_AES_256_GCM_SHA384;
              TLS_ECDHE_ECDSA_WITH_AES_128_GCM_SHA256;
              TLS_ECDHE_RSA_WITH_CHACHA20_POLY1305;
              TLS_ECDHE_RSA_WITH_AES_256_GCM_SHA384;
              TLS_ECDHE_RSA_WITH_AES_128_GCM_SHA256 ] |} |}.

(** *** Effects of [main] *)

(** What [main] does to the outside, in order. *)
Inductive event : Type :=
| Criticalf (msg : string)           (* log.Criticalf, log.Critical *)
| Infof (msg : string)               (* log.Infof, log.Info *)
| Start                              (* faucet.Start(cfg) *)
| Go (l : listener)                  (* a listener started in a goroutine *)
| Call (l : listener).               (* a listener run by main itself *)

(** How the process ends: with an exit status, by a panic (exit status 2),
    or never, blocked in a listener or on the signal channel. *)
Inductive outcome : Type :=
| Exit (code : Z)
| Panic
| Blocked.

(** Statements of [main]: the events so far and either a result or the end
    of the process. *)
Definition M (A : Type) : Type := (list event * (A + outcome))%type.

#[global] Instance M_ret : MRet M := fun _ a => ([], inl a).
#[global] Instance M_bind : MBind M := fun A B (f : A -> M B) (m : M A) =>
  match m with
  | (t, inl a) => ((t ++ fst (f a))%list, snd (f a))
  | (t, inr o) => (t, inr o)
  end.

Definition emit (e : event) : M unit := ([e], inl tt).
Definition stop {A : Type} (o : outcome) : M A := ([], inr o).

(** [return] in the body of [main]: the process exits with status 0. *)
Definition return_ {A : Type} : M A := stop (Exit 0).
(** [os.Exit(code)] *)
Definition osExit {A : Type} (code : Z) : M A := stop (Exit code).
(** [template.Must]: panics on an error. *)
Definition Must {A : Type} (r : option A) : M A :=
  match r with
  | Some a => mret a
  | None => stop Panic
  end.

(** The whole of [main]: falling off its end exits with status 0. *)
Definition exec (m : M unit) : list event * outcome :=
  match m with
  | (t, inl _) => (t, Exit 0)
  | (t, inr o) => (t, o)
  end.

(** *** The program, over the libraries it calls *)

Section Launcher.

(** [mime.TypeByExtension]: the empty string for an unknown extension. *)
Variable TypeByExtension : string -> string.
(** [http.DetectContentType] *)
Variable DetectContentType : bytes -> string.
(** Compiled templates, and the parser of [html/template]: [None] when the
    text is not a valid template. *)
Variable Tree : Type.
Variable parse : string -> option Tree.

(** [http.ServeContent(w, req, name, modtime, content)] for a request
    without range or precondition headers: unless a Content-Type is
    already set it is taken from the extension of [name] and, failing
    that, from the first 512 bytes of the content; the status is 200; the
    content is the body, except for a HEAD request. *)
Definition ServeContent (w : response) (req : request) (name : string)
    (content : bytes) : response :=
  let ctype :=
    match contentType w with
    | Some t => t
    | None =>
        let t := TypeByExtension (Ext name) in
        if String.eqb t "" then DetectContentType (take 512 content) else t
    end in
  {| status := Some 200%Z;
     contentType := Some ctype;
     body := if String.eqb (Method req) "HEAD" then body w
             else (body w ++ content)%list |}.

(** The closure of lines 115-124, run on the store as it is when the
    request arrives; [None] is a run-time panic. *)
Definition serveAsset (s : static.storage) (w : response) (req : request)
  : option response :=
  filepath ← sliceFrom 7 (URLPath req);
  let filepathSlice := Split filepath "/" in
  filename ← last filepathSlice;
  match static.Assets s !! filepath with
  | Some _ =>
      Some (ServeContent w req filename
              (default [] (static.Assets s !! filepath)))
  | None => Some w
  end.

(** What a client gets back from the router. *)
Inductive answer : Type :=
| Written (w : response)      (* by the asset closure *)
| Aborted                     (* the asset closure panicked *)
| Delegated (h : handler)     (* a page of the faucet, or the file server *)
| Status (code : Z).          (* 404 or 405, from the router itself *)

(** [(r *mux.Router).ServeHTTP] *)
Definition ServeHTTP (rs : router) (s : static.storage) (req : request)
  : answer :=
  match Match rs req with
  | Handled assetHandler =>
      match serveAsset s blank req with
      | Some w => Written w
      | None => Aborted
      end
  | Handled h => Delegated h
  | NotFound => Status 404%Z
  | MethodNotAllowed => Status 405%Z
  end.

(** [t.New(name).Parse(text)] on the template set [t]: the parsed text is
    defined under [name], in place of an earlier definition of that
    name. *)
Definition NewParse (t : gmap string Tree) (name text : string)
  : option (gmap string Tree) :=
  tree ← parse text; Some (<[name := tree]> t).

(** What [main] gets from outside during one run. *)
Record world : Type := mkWorld {
  (** [loadConfig()]; [None] is an error *)
  loadConfig : option config;
  (** [template.New("faucet").Funcs(...).ParseGlob(pattern)] *)
  ParseGlob : string -> option (gmap string Tree);
  (** the order in which [range] yields the entries of a map *)
  rangeTemplates : gmap string bytes -> list (string * bytes);
  (** the order in which [range] yields the keys of a map *)
  rangeAssets : gmap string bytes -> list string;
  (** [newLightningFaucet(cfg, templates)] succeeds *)
  newLightningFaucet : config -> gmap string Tree -> bool;
  (** [faucet.CloseAllChannels()] succeeds *)
  CloseAllChannels : bool;
  (** [httpServer.ListenAndServeTLS] comes back, with its error *)
  tlsListenerFails : bool;
  (** an interrupt signal arrives *)
  interrupt : bool
}.

(** [range] over a Go map yields every entry once, in no fixed order. *)
Definition rangeOf {V : Type} (m : gmap string V) (l : list (string * V))
  : Prop := l ≡ₚ map_to_list m.

Definition rangeKeysOf {V : Type} (m : gmap string V) (l : list string)
  : Prop := l ≡ₚ (map_to_list m).*1.

(** The loop of lines 57-64 over the entries [l]. *)
Fixpoint compileTemplates (faucetTemplates : gmap string Tree)
    (l : list (string * bytes)) : M (gmap string Tree) :=
  match l with
  | [] => mret faucetTemplates
  | (filepath, content) :: rest =>
      match sliceFrom 1 filepath with
      | None => stop Panic
      | Some name =>
          match NewParse faucetTemplates name (string_of content) with
          | None =>
              emit (Criticalf "unable to using static blob: %v");;
              return_
          | Some t => compileTemplates t rest
          end
      end
  end.

(** Lines 46-65: the templates, from the local directory or from the
    store. *)
Definition resolveTemplates (w : world) (s : static.storage) (cfg : config)
  : M (gmap string Tree) :=
  if negb (String.eqb (TemplatesDir cfg) "")
  then Must (ParseGlob w "templates/*.html")
  else
    faucetTemplates ← Must (NewParse ∅ "faucet" "");
    compileTemplates faucetTemplates (rangeTemplates w (static.Templates s)).

(** Lines 132-177: the listeners. *)
Definition startListeners (w : world) (cfg : config) (r : router) : M unit :=
  if negb (UseLeHTTPS cfg)
  then
    emit (Infof ("Listening on " ++ BindAddr cfg));;
    emit (Go (ListenAndServe (BindAddr cfg) (Mux r)))
  else
    let m := certManager cfg in
    emit (Infof ("Listening on " ++ BindAddr cfg));;
    emit (Go (ListenAndServe (BindAddr cfg) (HTTPHandler m)));;
    emit (Call (ListenAndServeTLS (httpServer cfg r)));;
    if tlsListenerFails w
    then emit (Criticalf "%v");; osExit 1%Z
    else stop Blocked.

(** Lines 179-181: wait for an interrupt. *)
Definition waitInterrupt (w : world) : M unit :=
  if interrupt w then mret tt else stop Blocked.

(** [func main()], run in the world [w] with the global store of package
    [static] holding [s]. *)
Definition main (w : world) (s : static.storage) : list event * outcome :=
  exec (
    cfg ← match loadConfig w with
          | Some cfg => mret cfg
          | None => return_
          end;
    faucetTemplates ← resolveTemplates w s cfg;
    (if newLightningFaucet w cfg faucetTemplates then mret tt
     else emit (Criticalf "unable to create faucet: %v");; osExit 1%Z);;
    if WipeChannels cfg
    then
      emit (Infof "Attempting to wipe all faucet channels");;
      (if CloseAllChannels w then mret tt
       else emit (Criticalf "unable to close all the faucet's channels: %v");;
            osExit 1%Z);;
      return_
    else
      emit Start;;
      let r := registerRoutes cfg (rangeAssets w (static.Assets s)) in
      startListeners w cfg r;;
      waitInterrupt w).

End Launcher.

(** The routes that the loop over the asset keys registers. *)
Definition assetRoutes (keys : list string) : router :=
  List.map (fun k => mkRoute (Path (staticRoute k)) [] assetHandler) keys.

(** A route with the exact path [tpl] is registered on the router. *)
Definition hasRoute (rs : router) (tpl : string) : bool :=
  existsb (fun r => match r_matcher r with
                    | Path t => String.eqb t tpl
                    | PathPrefix _ => false
                    end) rs.

(** The events of a run that start a listener, in order. *)
Definition listenerEvents (t : list event) : list event :=
  List.filter (fun e => match e with
                        | Go _ | Call _ => true
                        | _ => false
                        end) t.

(** The bytes of an answer that come out of the store: only the asset
    closure writes any. *)
Definition storeBytes (a : answer) : bytes :=
  match a with
  | Written w => body w
  | _ => []
  end.

Arguments main {Tree} parse w s.
Arguments resolveTemplates {Tree} parse w s cfg.
Arguments compileTemplates {Tree} parse faucetTemplates l.
Arguments NewParse {Tree} parse t name text.
Arguments startListeners {Tree} w cfg r.
Arguments waitInterrupt {Tree} w.
Arguments mkWorld {Tree}.
Arguments loadConfig {Tree} w.
Arguments ParseGlob {Tree} w.
Arguments rangeTemplates {Tree} w.
Arguments rangeAssets {Tree} w.
Arguments newLightningFaucet {Tree} w.
Arguments CloseAllChannels {Tree} w.
Arguments tlsListenerFails {Tree} w.
Arguments interrupt {Tree} w.

(** The run reaches the start of the faucet: the configuration loads, the
    templates compile, the faucet is created and no wipe is asked for. *)
Definition reachesStart {Tree : Type} (parse : string -> option Tree)
    (w : world Tree) (s : static.storage) (cfg : config) : Prop :=
  loadConfig w = Some cfg
  /\ (exists t, resolveTemplates parse w s cfg = ([], inl t)
                /\ newLightningFaucet w cfg t = true)
  /\ WipeChannels cfg = false.

(** The run [t] starts the TLS server [srv]. *)
Definition startsTLS (t : list event) (srv : Server) : Prop :=
  Go (ListenAndServeTLS srv) ∈ t \/ Call (ListenAndServeTLS srv) ∈ t.

(* ===================================================================== *)
(** ** A concrete installation *)
(* ===================================================================== *)

(** A stand-in for the template parser: a text parses when every action
    opened by two left braces is closed by two right braces. *)
Fixpoint closedActions (inAction : bool) (text : string) : bool :=
  match text with
  | EmptyString => negb inAction
  | String c rest =>
      match rest with
      | EmptyString => negb inAction
      | String d rest' =>
          if Ascii.eqb c "{" && Ascii.eqb d "{"
          then closedActions true rest'
          else if Ascii.eqb c "}" && Ascii.eqb d "}"
          then closedActions false rest'
          else closedActions inAction rest
      end
  end.

Definition exampleParse (text : string) : option string :=
  if closedActions false text then Some text else None.

(** Some entries of the built-in table of [mime.TypeByExtension]. *)
Definition exampleMime (ext : string) : string :=
  if String.eqb ext ".css" then "text/css; charset=utf-8"
  else if String.eqb ext ".html" then "text/html; charset=utf-8"
  else if String.eqb ext ".js" then "text/javascript; charset=utf-8"
  else if String.eqb ext ".png" then "image/png"
  else "".

(** A stand-in for the content sniffer. *)
Definition exampleSniff (content : bytes) : string :=
  "text/plain; charset=utf-8".

(** The global store after the generated registrations of one style sheet
    and one page template. *)
Definition exampleStore : static.storage :=
  static.run static.newStorage
    [ static.mkCall "static" "/css/a.css" (bytes_of "body{}");
      static.mkCall "template" "/index.html" (bytes_of "<h1>{{.Title}}</h1>") ].

(** The same with a template whose action is not closed. *)
Definition brokenStore : static.storage :=
  static.run static.newStorage
    [ static.mkCall "static" "/css/a.css" (bytes_of "body{}");
      static.mkCall "template" "/index.html" (bytes_of "<h1>{{.Title</h1>") ].

(** A store with a template registered under the empty path. *)
Definition emptyPathStore : static.storage :=
  static.run static.newStorage [ static.mkCall "template" "" (bytes_of "x") ].

(** Store mode for templates and static files, every action enabled. *)
Definition exampleConfig (secure wipe : bool) : config :=
  {| TemplatesDir := "";
     StaticDir := "";
     WipeChannels := wipe;
     DisableGenerateInvoices := false;
     DisablePayInvoices := false;
     UseLeHTTPS := secure;
     BindAddr := ":8080";
     Domain := "faucet.example.org" |}.

(** A run in which every collaborator succeeds, [range] follows the order
    of the map, the TLS listener keeps serving and an interrupt arrives. *)
Definition exampleWorld (cfg : config) : world string :=
  {| loadConfig := Some cfg;
     ParseGlob := fun _ => None;
     rangeTemplates := map_to_list;
     rangeAssets := fun m => (map_to_list m).*1;
     newLightningFaucet := fun _ _ => true;
     CloseAllChannels := true;
     tlsListenerFails := false;
     interrupt := true |}.

(** A store with two page templates. *)
Definition twoTemplateStore : static.storage :=
  static.run static.newStorage
    [ static.mkCall "static" "/css/a.css" (bytes_of "body{}");
      static.mkCall "template" "/index.html" (bytes_of "<h1>{{.Title}}</h1>");
      static.mkCall "template" "/info.html" (bytes_of "<p>{{.Info}}</p>") ].

(** The run of [exampleWorld] with [range] going through the maps the
    other way round. *)
Definition reversedWorld (cfg : config) : world string :=
  {| loadConfig := Some cfg;
     ParseGlob := fun _ => None;
     rangeTemplates := fun m => reverse (map_to_list m);
     rangeAssets := fun m => reverse (map_to_list m).*1;
     newLightningFaucet := fun _ _ => true;
     CloseAllChannels := true;
     tlsListenerFails := false;
     interrupt := true |}.

(** A run in which the TLS listener comes back with an error. *)
Definition failingTLSWorld (cfg : config) : world string :=
  {| loadConfig := Some cfg;
     ParseGlob := fun _ => None;
     rangeTemplates := map_to_list;
     rangeAssets := fun m => (map_to_list m).*1;
     newLightningFaucet := fun _ _ => true;
     CloseAllChannels := true;
     tlsListenerFails := true;
     interrupt := false |}.

(** Local-directory mode for templates and static files. *)
Definition localConfig : config :=
  {| TemplatesDir := "pages";
     StaticDir := "public";
     WipeChannels := false;
     DisableGenerateInvoices := false;
     DisablePayInvoices := false;
     UseLeHTTPS := false;
     BindAddr := ":8080";
     Domain := "faucet.example.org" |}.

(** A run in local-directory mode; the glob finds one page. *)
Definition localWorld : world string :=
  {| loadConfig := Some localConfig;
     ParseGlob := fun pattern =>
       if String.eqb pattern "templates/*.html"
       then Some (<["index.html" := "<h1>{{.Title}}</h1>"]> ∅)
       else None;
     rangeTemplates := map_to_list;
     rangeAssets := fun m => (map_to_list m).*1;
     newLightningFaucet := fun _ _ => true;
     CloseAllChannels := true;
     tlsListenerFails := false;
     interrupt := true |}.

(* ===================================================================== *)
(** ** Notions used by the further properties *)
(* ===================================================================== *)

(** Where a registration lands: whether its file type selects the asset
    namespace, and its path. *)
Definition callTarget (c : static.call) : bool * string :=
  (String.eqb (static.c_filetype c) "static", static.c_filepath c).

(** The name of the dynamic type of a value; the nil interface has none. *)
Definition typeName (v : value) : string :=
  match v with
  | VNil => ""
  | VBool ty _ | VInt ty _ | VString ty _ | VSlice ty _ | VStruct ty _
  | VPtr ty _ | VFunc ty _ => ty
  end.

(* ===================================================================== *)
(** * Properties *)
(* ===================================================================== *)

(** ** The resource store *)

Lemma eqb_static_false (filetype : string) :
  String.eqb filetype "static" = false <-> filetype <> "static".
Proof. apply String.eqb_neq. Qed.

Lemma Add_static (s : static.storage) (filepath : string) (content : bytes) :
  static.Add s "static" filepath content =
  static.mkStorage (<[filepath := content]> (static.assets s))
                   (static.templates s).
Proof. reflexivity. Qed.

Lemma Add_other (s : static.storage) (filetype filepath : string)
    (content : bytes) :
  filetype <> "static" ->
  static.Add s filetype filepath content =
  static.mkStorage (static.assets s)
                   (<[filepath := content]> (static.templates s)).
Proof.
  intros Hne. unfold static.Add.
  by rewrite (proj2 (eqb_static_false filetype) Hne).
Qed.

(** The namespace a file type selects, as [Add] reads it back. *)
Lemma Add_lookup (s : static.storage) (filetype filepath : string)
    (content : bytes) :
  (if String.eqb filetype "static"
   then static.Assets (static.Add s filetype filepath content)
   else static.Templates (static.Add s filetype filepath content))
    !! filepath = Some content.
Proof.
  unfold static.Add, static.Assets, static.Templates.
  destruct (String.eqb filetype "static"); simpl; apply lookup_insert_eq.
Qed.

(** C4. Registering the same path twice in the same namespace keeps the
    second content: the store after [Add(ns, p, c1); Add(ns, p, c2)] is the
    store after [Add(ns, p, c2)] alone, and the namespace that [ns] selects,
    read through [Assets()] or [Templates()], holds [c2] at [p].  The same
    holds for the package-level functions over the global store. *)
Theorem Add_twice_last_write_wins (s : static.storage) (ns p : string)
    (c1 c2 : bytes) :
  static.Add (static.Add s ns p c1) ns p c2 = static.Add s ns p c2
  /\ (if String.eqb ns "static"
      then static.Assets (static.Add (static.Add s ns p c1) ns p c2)
      else static.Templates (static.Add (static.Add s ns p c1) ns p c2))
       !! p = Some c2
  /\ static.run s [static.mkCall ns p c1; static.mkCall ns p c2]
     = static.run s [static.mkCall ns p c2].
Proof.
  assert (Heq : static.Add (static.Add s ns p c1) ns p c2
                = static.Add s ns p c2).
  { unfold static.Add. destruct (String.eqb ns "static"); simpl;
      by rewrite insert_insert_eq. }
  split; [exact Heq|]. split.
  - apply Add_lookup.
  - simpl. exact Heq.
Qed.

(** C9. [Add(filetype, path, content)] puts the entry into the asset
    namespace, and leaves the templates alone, exactly when [filetype] is
    the string "static"; with any other file type the entry goes to the
    template namespace and the assets are left alone.  The file types
    "asset", "Static" and the empty string are of the second kind. *)
Theorem Add_selects_namespace (s : static.storage) (filetype path : string)
    (content : bytes) :
  (filetype = "static" ->
     static.Assets (static.Add s filetype path content)
       = <[path := content]> (static.Assets s)
     /\ static.Templates (static.Add s filetype path content)
       = static.Templates s)
  /\ (filetype <> "static" ->
     static.Templates (static.Add s filetype path content)
       = <[path := content]> (static.Templates s)
     /\ static.Assets (static.Add s filetype path content)
       = static.Assets s)
  /\ (forall ft, ft ∈ ["asset"; "Static"; ""] ->
     static.Templates (static.Add s ft path content) !! path = Some content
     /\ static.Assets (static.Add s ft path content) = static.Assets s).
Proof.
  split; [|split].
  - intros ->. by rewrite Add_static.
  - intros Hne. by rewrite Add_other.
  - intros ft Hft.
    assert (Hne : ft <> "static").
    { intros Heq. revert Hft. rewrite Heq, !elem_of_cons, elem_of_nil.
      intros [?|[?|[?|[]]]]; discriminate. }
    rewrite Add_other by done. simpl. split; [apply lookup_insert_eq|done].
Qed.

(** ** The router *)

Lemma registerAssets_app (r : router) (keys : list string) :
  registerAssets r keys =
  (r ++ List.map (fun k => mkRoute (Path (staticRoute k)) [] assetHandler) keys)%list.
Proof.
  revert r. induction keys as [|k keys IH]; intros r; simpl.
  - by rewrite app_nil_r.
  - unfold registerAssets in *. simpl. rewrite IH. unfold HandleFunc.
    by rewrite <- app_assoc.
Qed.

Lemma hasRoute_app (r1 r2 : router) (tpl : string) :
  hasRoute (r1 ++ r2) tpl = hasRoute r1 tpl || hasRoute r2 tpl.
Proof. unfold hasRoute. apply existsb_app. Qed.

Lemma hasRoute_assets_tools (keys : list string) :
  hasRoute (List.map (fun k => mkRoute (Path (staticRoute k)) [] assetHandler) keys)
           "/tools" = false.
Proof. induction keys as [|k keys IH]; [done|]. simpl. exact IH. Qed.

Lemma matchRoutes_app_nomatch (r1 r2 : router) (req : request) (b : bool) :
  forallb (fun r => negb (matchPath (r_matcher r) (URLPath req))) r1 = true ->
  matchRoutes (r1 ++ r2) req b = matchRoutes r2 req b.
Proof.
  induction r1 as [|r r1 IH]; simpl; [done|].
  intros [Hr Hr1]%andb_true_iff. apply negb_true_iff in Hr. rewrite Hr. auto.
Qed.


Lemma registerRoutes_eq (cfg : config) (keys : list string) :
  registerRoutes cfg keys =
  ([mkRoute (Path "/") ["POST"; "GET"] faucetHome;
    mkRoute (Path "/info") ["GET"] infoPage]
   ++ (if DisableGenerateInvoices cfg && DisablePayInvoices cfg then []
       else [mkRoute (Path "/tools") ["POST"; "GET"] toolsPage])
   ++ (if String.eqb (StaticDir cfg) "" then assetRoutes keys
       else [mkRoute (PathPrefix "/static/") [] (staticHandler (StaticDir cfg))]))%list.
Proof.
  unfold registerRoutes, PathPrefixHandler, assetRoutes.
  rewrite registerAssets_app. unfold HandleFunc.
  destruct (DisableGenerateInvoices cfg && DisablePayInvoices cfg);
    destruct (String.eqb (StaticDir cfg) ""); reflexivity.
Qed.

Lemma matchRoutes_assets (keys : list string) (req : request) (b : bool) :
  matchRoutes (assetRoutes keys) req b =
  if existsb (fun k => String.eqb (staticRoute k) (URLPath req)) keys
  then Handled assetHandler
  else if b then MethodNotAllowed else NotFound.
Proof.
  induction keys as [|k keys IH]; [done|].
  cbn [assetRoutes List.map matchRoutes r_matcher r_methods r_handler
       matchPath matchMethod existsb orb].
  destruct (String.eqb (staticRoute k) (URLPath req)); [done|exact IH].
Qed.

(** C10. The route "/tools" is on the router exactly when invoice
    generation and invoice payment are not both disabled; a GET or POST
    request for "/tools" then reaches the tools page, and gets 404 when
    both are disabled.  This holds in both static-file modes and for
    every set of embedded assets. *)
Theorem tools_route_iff_an_action_enabled (cfg : config) (keys : list string) :
  hasRoute (registerRoutes cfg keys) "/tools"
    = negb (DisableGenerateInvoices cfg && DisablePayInvoices cfg)
  /\ (forall method, method ∈ ["GET"; "POST"] ->
       Match (registerRoutes cfg keys) (mkRequest method "/tools")
       = if DisableGenerateInvoices cfg && DisablePayInvoices cfg
         then NotFound else Handled toolsPage).
Proof.
  rewrite registerRoutes_eq. split.
  - rewrite !hasRoute_app. fold (assetRoutes keys).
    destruct (DisableGenerateInvoices cfg && DisablePayInvoices cfg);
      destruct (String.eqb (StaticDir cfg) ""); simpl;
      rewrite ?hasRoute_assets_tools; reflexivity.
  - intros method Hm.
    assert (Hcases : method = "GET" \/ method = "POST").
    { revert Hm. rewrite !elem_of_cons, elem_of_nil. tauto. }
    unfold Match.
    destruct (DisableGenerateInvoices cfg && DisablePayInvoices cfg);
      destruct (String.eqb (StaticDir cfg) "");
      destruct Hcases as [-> | ->]; simpl; try reflexivity;
      rewrite matchRoutes_assets; simpl.
    all: induction keys as [|k keys IH]; simpl; auto.
Qed.

(** ** The run of [main] *)

(** [Start] is none of the events listed in the goal. *)
Ltac no_start :=
  let H := fresh in
  intros H; rewrite ?elem_of_cons, elem_of_nil in H;
  repeat (destruct H as [H|H]; [discriminate H|]); exact H.

Section Runs.

Context {Tree : Type} (parse : string -> option Tree).

(** The three ways in which the loop over the templates ends. *)
Lemma compileTemplates_cases (t : gmap string Tree) (l : list (string * bytes)) :
  (exists t', compileTemplates parse t l = ([], inl t'))
  \/ compileTemplates parse t l = ([], inr Panic)
  \/ compileTemplates parse t l
     = ([Criticalf "unable to using static blob: %v"], inr (Exit 0)).
Proof.
  revert t. induction l as [|[filepath content] l IH]; intros t;
    cbn [compileTemplates].
  - left. by eexists.
  - destruct (sliceFrom 1 filepath) as [name|]; [|right; left; reflexivity].
    destruct (NewParse parse t name (string_of content)) as [t1|].
    + apply IH.
    + right; right. reflexivity.
Qed.

Lemma resolveTemplates_cases (w : world Tree) (s : static.storage)
    (cfg : config) :
  (exists t, resolveTemplates parse w s cfg = ([], inl t))
  \/ resolveTemplates parse w s cfg = ([], inr Panic)
  \/ resolveTemplates parse w s cfg
     = ([Criticalf "unable to using static blob: %v"], inr (Exit 0)).
Proof.
  unfold resolveTemplates.
  destruct (negb (String.eqb (TemplatesDir cfg) "")).
  - destruct (ParseGlob w "templates/*.html") as [t|]; simpl.
    + left. by eexists.
    + right; left. reflexivity.
  - destruct (NewParse parse ∅ "faucet" "") as [t0|]; simpl.
    + destruct (compileTemplates_cases t0 (rangeTemplates w (static.Templates s)))
        as [[t' ->] | [-> | ->]]; simpl; eauto.
    + right; left. reflexivity.
Qed.

Lemma main_from_start (w : world Tree) (s : static.storage) (cfg : config) :
  reachesStart parse w s cfg ->
  main parse w s =
  exec (emit Start;;
        startListeners w cfg (registerRoutes cfg (rangeAssets w (static.Assets s)));;
        waitInterrupt w).
Proof.
  intros (Hcfg & (t & Ht & Hf) & Hw). unfold main.
  rewrite Hcfg. simpl. rewrite Ht. simpl. rewrite Hf. simpl. rewrite Hw.
  reflexivity.
Qed.

Lemma main_without_start (w : world Tree) (s : static.storage) :
  (forall cfg, ~ reachesStart parse w s cfg) ->
  listenerEvents (main parse w s).1 = [] /\ Start ∉ (main parse w s).1.
Proof.
  intros Hno. unfold main.
  destruct (loadConfig w) as [cfg|] eqn:Hcfg; simpl; [|split; [done|no_start]].
  destruct (resolveTemplates_cases w s cfg) as [[t Ht] | [Ht | Ht]];
    rewrite Ht; simpl; try (split; [done|no_start]).
  destruct (newLightningFaucet w cfg t) eqn:Hf; simpl;
    [|split; [done|no_start]].
  destruct (WipeChannels cfg) eqn:Hw; simpl.
  - destruct (CloseAllChannels w); simpl; (split; [done|no_start]).
  - exfalso. apply (Hno cfg). split; [done|]. split; [|done]. eauto.
Qed.


(** The listeners of lines 132-177, by mode. *)
Lemma startListeners_events (w : world Tree) (cfg : config) (r : router) :
  listenerEvents (startListeners w cfg r).1 =
  if UseLeHTTPS cfg
  then [Go (ListenAndServe (BindAddr cfg) (HTTPHandler (certManager cfg)));
        Call (ListenAndServeTLS (httpServer cfg r))]
  else [Go (ListenAndServe (BindAddr cfg) (Mux r))].
Proof.
  unfold startListeners.
  destruct (UseLeHTTPS cfg); [|reflexivity].
  destruct (tlsListenerFails w); reflexivity.
Qed.

Lemma main_listeners_from_start (w : world Tree) (s : static.storage)
    (cfg : config) :
  reachesStart parse w s cfg ->
  Start ∈ (main parse w s).1
  /\ listenerEvents (main parse w s).1 =
     listenerEvents
       (startListeners w cfg (registerRoutes cfg (rangeAssets w (static.Assets s)))).1.
Proof.
  intros Hr. rewrite (main_from_start w s cfg Hr).
  unfold startListeners, waitInterrupt.
  destruct (UseLeHTTPS cfg); simpl.
  - destruct (tlsListenerFails w); simpl; (split; [by apply elem_of_cons; left|done]).
  - destruct (interrupt w); simpl; (split; [by apply elem_of_cons; left|done]).
Qed.


Lemma main_start_or_not (w : world Tree) (s : static.storage) :
  (exists cfg, reachesStart parse w s cfg)
  \/ (forall cfg, ~ reachesStart parse w s cfg).
Proof.
  unfold reachesStart.
  destruct (loadConfig w) as [cfg|] eqn:Hcfg;
    [|right; intros cfg' (H & _); discriminate H].
  destruct (resolveTemplates_cases w s cfg) as [[t Ht] | [Ht | Ht]].
  - destruct (newLightningFaucet w cfg t) eqn:Hf.
    + destruct (WipeChannels cfg) eqn:Hw.
      * right. intros cfg' (H & _ & Hw'). congruence.
      * left. exists cfg. eauto.
    + right. intros cfg' (H & (t' & Ht' & Hf') & _).
      assert (cfg' = cfg) as -> by congruence. congruence.
  - right. intros cfg' (H & (t' & Ht' & _) & _).
    assert (cfg' = cfg) as -> by congruence. congruence.
  - right. intros cfg' (H & (t' & Ht' & _) & _).
    assert (cfg' = cfg) as -> by congruence. congruence.
Qed.

(** The listeners of [main]: those of lines 132-177 when the run gets
    there, none when it ends before. *)
Lemma main_listeners (w : world Tree) (s : static.storage) :
  ((Start ∉ (main parse w s).1) /\ listenerEvents (main parse w s).1 = [])
  \/ (exists cfg, loadConfig w = Some cfg
       /\ Start ∈ (main parse w s).1
       /\ listenerEvents (main parse w s).1 =
          listenerEvents
            (startListeners w cfg (registerRoutes cfg (rangeAssets w (static.Assets s)))).1).
Proof.
  destruct (main_start_or_not w s) as [[cfg Hr] | Hno].
  - right. exists cfg. split; [apply Hr|].
    by apply main_listeners_from_start.
  - left. destruct (main_without_start w s Hno). done.
Qed.


Lemma listenerEvents_elem (t : list event) (l : listener) :
  (Go l ∈ t -> Go l ∈ listenerEvents t)
  /\ (Call l ∈ t -> Call l ∈ listenerEvents t).
Proof.
  unfold listenerEvents. split; intros H; apply list_elem_of_In, filter_In;
    (split; [by apply list_elem_of_In|done]).
Qed.

(** C7. Every TLS server that a run of [main] starts has minimum protocol
    version TLS 1.2, exactly the six listed cipher suites, all of them with
    an ECDHE key exchange, and read and write timeouts of 30 seconds; it is
    started only with secure mode enabled, and it is the same server
    configuration in every such run. *)
Theorem https_server_configuration (w : world Tree) (s : static.storage)
    (srv : Server) :
  startsTLS (main parse w s).1 srv ->
  MinVersion (TLSConfig srv) = VersionTLS12
  /\ VersionTLS12 = 0x0303%Z
  /\ (VersionTLS10 < MinVersion (TLSConfig srv))%Z
  /\ (VersionTLS11 < MinVersion (TLSConfig srv))%Z
  /\ CipherSuites (TLSConfig srv) =
       [ TLS_ECDHE_ECDSA_WITH_CHACHA20_POLY1305;
         TLS_ECDHE_ECDSA_WITH_AES_256_GCM_SHA384;
         TLS_ECDHE_ECDSA_WITH_AES_128_GCM_SHA256;
         TLS_ECDHE_RSA_WITH_CHACHA20_POLY1305;
         TLS_ECDHE_RSA_WITH_AES_256_GCM_SHA384;
         TLS_ECDHE_RSA_WITH_AES_128_GCM_SHA256 ]
  /\ length (CipherSuites (TLSConfig srv)) = 6
  /\ forallb isECDHE (CipherSuites (TLSConfig srv)) = true
  /\ ReadTimeout srv = (30 * 1000000000)%Z
  /\ WriteTimeout srv = (30 * 1000000000)%Z
  /\ exists cfg, loadConfig w = Some cfg /\ UseLeHTTPS cfg = true
       /\ srv = httpServer cfg (registerRoutes cfg (rangeAssets w (static.Assets s))).
Proof.
  intros Hsrv.
  assert (Hin : Go (ListenAndServeTLS srv) ∈ listenerEvents (main parse w s).1
                \/ Call (ListenAndServeTLS srv) ∈ listenerEvents (main parse w s).1).
  { destruct Hsrv as [H|H]; [left|right]; by apply listenerEvents_elem. }
  destruct (main_listeners w s) as [[_ Hl] | (cfg & Hcfg & _ & Hl)];
    rewrite Hl in Hin.
  - destruct Hin as [H|H]; by apply elem_of_nil in H.
  - rewrite startListeners_events in Hin.
    destruct (UseLeHTTPS cfg) eqn:Hs.
    + assert (srv = httpServer cfg (registerRoutes cfg (rangeAssets w (static.Assets s)))) as ->.
      { destruct Hin as [H|H]; rewrite !elem_of_cons, elem_of_nil in H;
          destruct H as [H|[H|[]]]; congruence. }
      repeat (split; [reflexivity|]). exists cfg. done.
    + destruct Hin as [H|H]; rewrite !elem_of_cons, elem_of_nil in H;
        destruct H as [H|[]]; discriminate H.
Qed.

End Runs.

(** ** Static assets *)

Lemma sliceFrom_staticRoute (key : string) :
  sliceFrom 7 (staticRoute key) = Some key.
Proof. reflexivity. Qed.

Lemma Split_not_nil (s : string) (sep : ascii) : Split s sep <> [].
Proof.
  destruct s as [|c s]; simpl; [done|].
  destruct (Ascii.eqb c sep); [done|]. by destruct (Split s sep).
Qed.

Lemma last_Split (s : string) (sep : ascii) : is_Some (last (Split s sep)).
Proof.
  destruct (last (Split s sep)) eqn:H; [by eexists|].
  apply last_None in H. by apply Split_not_nil in H.
Qed.

Lemma staticRoute_inj (k1 k2 : string) :
  String.eqb (staticRoute k1) (staticRoute k2) = String.eqb k1 k2.
Proof. reflexivity. Qed.

Lemma existsb_staticRoute (keys : list string) (key : string) :
  key ∈ keys ->
  existsb (fun k => String.eqb (staticRoute k) (staticRoute key)) keys = true.
Proof.
  intros Hin. apply existsb_exists. exists key. split.
  - by apply list_elem_of_In.
  - rewrite staticRoute_inj. apply String.eqb_refl.
Qed.

(** In store mode a request for the route of a registered key reaches the
    asset closure, whatever its method. *)
Lemma Match_asset (cfg : config) (keys : list string) (key method : string) :
  StaticDir cfg = "" -> key ∈ keys ->
  Match (registerRoutes cfg keys) (mkRequest method (staticRoute key))
  = Handled assetHandler.
Proof.
  intros Hdir Hin. rewrite registerRoutes_eq, Hdir. unfold Match.
  cbn [String.eqb].
  rewrite app_assoc, matchRoutes_app_nomatch.
  - rewrite matchRoutes_assets. cbn [URLPath].
    by rewrite existsb_staticRoute.
  - destruct (DisableGenerateInvoices cfg && DisablePayInvoices cfg);
      reflexivity.
Qed.

Lemma rangeKeysOf_elem {V : Type} (m : gmap string V) (keys : list string)
    (key : string) :
  rangeKeysOf m keys -> (key ∈ keys <-> is_Some (m !! key)).
Proof.
  unfold rangeKeysOf. intros ->. rewrite list_elem_of_fmap. split.
  - intros [[k v] [-> Hkv]]. apply elem_of_map_to_list in Hkv. by eexists.
  - intros [v Hv]. exists (key, v). split; [done|].
    by apply elem_of_map_to_list.
Qed.

(** Later registrations never remove an asset. *)
Lemma run_keeps_asset (s : static.storage) (cs : list static.call)
    (key : string) :
  is_Some (static.Assets s !! key) ->
  is_Some (static.Assets (static.run s cs) !! key).
Proof.
  revert s. induction cs as [|c cs IH]; intros s Hs; [done|].
  apply IH. unfold static.Add, static.Assets in *.
  destruct (String.eqb (static.c_filetype c) "static"); simpl; [|done].
  destruct (decide (static.c_filepath c = key)) as [->|Hne].
  - rewrite lookup_insert_eq. by eexists.
  - by rewrite lookup_insert_ne.
Qed.

Section Assets.

Variable TypeByExtension : string -> string.
Variable DetectContentType : bytes -> string.

Lemma serveAsset_present (s : static.storage) (method key : string)
    (content : bytes) :
  static.Assets s !! key = Some content ->
  exists filename,
    last (Split key "/") = Some filename
    /\ serveAsset TypeByExtension DetectContentType s blank
         (mkRequest method (staticRoute key))
       = Some (ServeContent TypeByExtension DetectContentType blank
                 (mkRequest method (staticRoute key)) filename content).
Proof.
  intros Hc. destruct (last_Split key "/") as [filename Hf].
  exists filename. split; [done|].
  unfold serveAsset. cbn [URLPath]. rewrite sliceFrom_staticRoute.
  simpl. rewrite Hf. simpl. by rewrite Hc.
Qed.



End Assets.

(** ** Templates from the store *)

Lemma sliceFrom_1_nonempty (p : string) :
  p <> "" -> exists name, sliceFrom 1 p = Some name.
Proof. destruct p as [|c name]; [done|]. intros _. by exists name. Qed.

Lemma rangeOf_elem {V : Type} (m : gmap string V) (l : list (string * V))
    (k : string) (v : V) :
  rangeOf m l -> ((k, v) ∈ l <-> m !! k = Some v).
Proof. unfold rangeOf. intros ->. apply elem_of_map_to_list. Qed.

Lemma M_bind_ret {A B : Type} (a : A) (f : A -> M B) :
  (([], inl a) : M A) ≫= f = f a.
Proof. unfold mbind, M_bind. simpl. by destruct (f a). Qed.

Section Templates.

Context {Tree : Type} (parse : string -> option Tree).

(** Store mode starts from the set that holds the empty template
    "faucet". *)
Lemma resolveTemplates_store (w : world Tree) (s : static.storage)
    (cfg : config) (t0 : Tree) :
  TemplatesDir cfg = "" -> parse "" = Some t0 ->
  resolveTemplates parse w s cfg
  = compileTemplates parse (<["faucet" := t0]> ∅)
      (rangeTemplates w (static.Templates s)).
Proof.
  intros Hdir Ht0. unfold resolveTemplates, NewParse.
  rewrite Hdir, Ht0. cbn [String.eqb negb mbind option_bind Must].
  unfold mret, M_ret. by rewrite M_bind_ret.
Qed.

(** A template that does not parse ends the loop with a critical log line
    and a plain [return]. *)
Lemma compileTemplates_invalid (l : list (string * bytes))
    (t : gmap string Tree) :
  (forall p c, (p, c) ∈ l -> p <> "") ->
  (exists p c, (p, c) ∈ l /\ parse (string_of c) = None) ->
  compileTemplates parse t l
  = ([Criticalf "unable to using static blob: %v"], inr (Exit 0)).
Proof.
  revert t. induction l as [|[p0 c0] l IH]; intros t Hne (p & c & Hin & Hp).
  - by apply elem_of_nil in Hin.
  - cbn [compileTemplates].
    destruct (sliceFrom_1_nonempty p0) as [name ->].
    { apply (Hne p0 c0), list_elem_of_here. }
    unfold NewParse.
    destruct (parse (string_of c0)) as [tree|] eqn:Hp0; simpl; [|done].
    apply IH.
    + intros p' c' H'. apply (Hne p' c'). by apply list_elem_of_further.
    + apply elem_of_cons in Hin as [Heq | Hin].
      * injection Heq as -> ->. congruence.
      * eauto.
Qed.

(** When every path is non-empty and every content parses, the loop ends
    with a template set that holds, under every name that a single path
    yields, the compiled content of that path, and that is unchanged at
    the names that no path yields. *)
Lemma compileTemplates_valid (l : list (string * bytes))
    (t : gmap string Tree) :
  (forall p c, (p, c) ∈ l -> p <> "" /\ is_Some (parse (string_of c))) ->
  exists t',
    compileTemplates parse t l = ([], inl t')
    /\ (forall n, (forall p c, (p, c) ∈ l -> sliceFrom 1 p <> Some n) ->
                  t' !! n = t !! n)
    /\ (forall p c n,
          (p, c) ∈ l -> sliceFrom 1 p = Some n ->
          (forall p' c', (p', c') ∈ l -> sliceFrom 1 p' = Some n ->
                         p' = p /\ c' = c) ->
          t' !! n = parse (string_of c)).
Proof.
  revert t. induction l as [|[p0 c0] l IH]; intros t Hok.
  - exists t. split; [done|]. split; [done|].
    intros p c n Hin. by apply elem_of_nil in Hin.
  - destruct (Hok p0 c0) as [Hp0 [tree0 Htree0]]; [apply list_elem_of_here|].
    destruct (sliceFrom_1_nonempty p0 Hp0) as [n0 Hn0].
    destruct (IH (<[n0 := tree0]> t)) as (t' & Hrun & Hframe & Hset).
    { intros p c H. apply Hok. by apply list_elem_of_further. }
    exists t'. split; [|split].
    + cbn [compileTemplates]. rewrite Hn0. unfold NewParse.
      rewrite Htree0. simpl. exact Hrun.
    + intros n Hn. rewrite Hframe.
      * apply lookup_insert_ne. intros ->.
        apply (Hn p0 c0); [apply list_elem_of_here|done].
      * intros p c H. apply (Hn p c). by apply list_elem_of_further.
    + intros p c n Hin Hpn Huniq.
      destruct (decide (Exists (fun pc => sliceFrom 1 pc.1 = Some n) l))
        as [Hex | Hnex].
      * apply Exists_exists in Hex as ([p1 c1] & Hin1 & Hn1). simpl in Hn1.
        destruct (Huniq p1 c1) as [-> ->];
          [by apply list_elem_of_further|done|].
        apply (Hset p c n Hin1 Hpn).
        intros p' c' H' Hn'. apply Huniq; [by apply list_elem_of_further|done].
      * apply elem_of_cons in Hin as [Heq | Hin].
        -- injection Heq as -> ->.
           rewrite Hframe.
           ++ assert (n0 = n) as -> by congruence.
              by rewrite lookup_insert_eq.
           ++ intros p1 c1 H1 Hn1. apply Hnex, Exists_exists.
              by exists (p1, c1).
        -- exfalso. apply Hnex, Exists_exists. by exists (p, c).
Qed.

(** C2, what the code does. In store mode, when some template of the
    namespace does not parse, [main] logs the failure at critical severity
    and returns: no listener has been started, and the exit status is 0,
    not a non-zero one. *)
Theorem invalid_template_returns_status_zero (w : world Tree)
    (s : static.storage) (cfg : config) (path : string) (content : bytes) :
  loadConfig w = Some cfg ->
  TemplatesDir cfg = "" ->
  rangeOf (static.Templates s) (rangeTemplates w (static.Templates s)) ->
  is_Some (parse "") ->
  (forall p, is_Some (static.Templates s !! p) -> p <> "") ->
  static.Templates s !! path = Some content ->
  parse (string_of content) = None ->
  main parse w s
  = ([Criticalf "unable to using static blob: %v"], Exit 0).
Proof.
  intros Hcfg Hdir Hrange [t0 Ht0] Hne Hpath Hbad.
  unfold main. rewrite Hcfg. unfold mret, M_ret. rewrite M_bind_ret.
  rewrite (resolveTemplates_store w s cfg t0 Hdir Ht0).
  rewrite compileTemplates_invalid; [done| |].
  - intros p c Hin. apply Hne. exists c.
    by apply (rangeOf_elem _ _ _ _ Hrange).
  - exists path, content. split; [|done].
    by apply (rangeOf_elem _ _ _ _ Hrange).
Qed.


End Templates.

(** ** Deep equality *)

Lemma distinctInstances_spec (x y : value) :
  distinctInstances x y = true <-> disjointAddresses x y.
Proof.
  unfold distinctInstances, disjointAddresses. rewrite forallb_forall.
  split; intros H a Ha.
  - intros Hy. specialize (H a Ha). apply negb_true_iff in H.
    assert (existsb (N.eqb a) (addresses y) = true); [|congruence].
    apply existsb_exists. exists a. split; [done|apply N.eqb_refl].
  - apply negb_true_iff, not_true_is_false.
    intros [b [Hb ->%N.eqb_eq]]%existsb_exists. eauto.
Qed.

Lemma all2_structure (l1 l2 : list value) :
  Forall (fun x => forall y, disjointAddresses x y -> DeepEqual x y = true ->
                             structure x = structure y) l1 ->
  (forall x y, In x l1 -> In y l2 -> disjointAddresses x y) ->
  all2 DeepEqual l1 l2 = true ->
  List.map structure l1 = List.map structure l2.
Proof.
  intros HP. revert l2. induction HP as [|x l1 Hx _ IH]; intros [|y l2] Hd H;
    simpl in *; try done.
  apply andb_true_iff in H as [Hxy Hl]. f_equal.
  - apply Hx; [|done]. apply Hd; by left.
  - apply IH; [|done]. intros x' y' ? ?. apply Hd; by right.
Qed.

Lemma disjoint_elements (l1 l2 : list value) :
  (forall a, In a (List.concat (List.map addresses l1)) ->
             In a (List.concat (List.map addresses l2)) -> False) ->
  forall x y, In x l1 -> In y l2 -> disjointAddresses x y.
Proof.
  intros H x y Hx Hy a Ha Hb. apply (H a); apply in_concat.
  - exists (addresses x). split; [by apply in_map|done].
  - exists (addresses y). split; [by apply in_map|done].
Qed.

(** Deep equality of distinct instances implies equal structure. *)
Lemma DeepEqual_structure (x : value) :
  forall y, disjointAddresses x y -> DeepEqual x y = true ->
            structure x = structure y.
Proof.
  induction x as [|ty b|ty n|ty s|ty|ty l IH|ty fs IH|ty|ty a v IH|ty c]
    using value_nested_ind; intros y Hd H; destruct y; try discriminate H;
    simpl in H; try (apply andb_true_iff in H as [Ht H]);
    try apply String.eqb_eq in Ht; subst.
  - reflexivity.
  - by apply Bool.eqb_prop in H as ->.
  - by apply Z.eqb_eq in H as ->.
  - by apply String.eqb_eq in H as ->.
  - by destruct elems.
  - destruct elems as [l2|]; [|done]. simpl. do 2 f_equal.
    apply all2_structure; [done| |done].
    apply disjoint_elements. exact Hd.
  - simpl. f_equal. apply all2_structure; [done| |done].
    apply disjoint_elements. exact Hd.
  - by destruct target as [[]|].
  - destruct target as [[a2 v2]|]; [|done]. simpl. do 3 f_equal.
    assert (Ha : N.eqb a a2 = false).
    { apply N.eqb_neq. intros ->. apply (Hd a2); simpl; by left. }
    rewrite Ha in H. simpl in H. apply IH; [|done].
    intros b Hb Hb'. apply (Hd b); simpl; by right.
  - destruct c, code; done.
Qed.

Lemma structure_all2 (l1 l2 : list value) :
  Forall (fun x => forall y, funcFree x = true -> structure x = structure y ->
                             DeepEqual x y = true) l1 ->
  forallb funcFree l1 = true ->
  List.map structure l1 = List.map structure l2 ->
  all2 DeepEqual l1 l2 = true.
Proof.
  intros HP. revert l2. induction HP as [|x l1 Hx _ IH]; intros [|y l2] Hf H;
    simpl in *; try done.
  apply andb_true_iff in Hf as [Hfx Hfl]. injection H as Hxy Hl.
  apply andb_true_iff. split; [by apply Hx|by apply IH].
Qed.

(** Values of equal structure without a non-nil func are deeply equal. *)
Lemma structure_DeepEqual (x : value) :
  forall y, funcFree x = true -> structure x = structure y ->
            DeepEqual x y = true.
Proof.
  induction x as [|ty b|ty n|ty s|ty|ty l IH|ty fs IH|ty|ty a v IH|ty c]
    using value_nested_ind; intros y Hf H.
  - by destruct y as [| | | |? [?|]|?|? [[]|]|].
  - destruct y as [| | | |? [?|]|?|? [[]|]|]; try discriminate H.
    injection H as -> ->. simpl.
    by rewrite String.eqb_refl, Bool.eqb_reflx.
  - destruct y as [| | | |? [?|]|?|? [[]|]|]; try discriminate H.
    injection H as -> ->. simpl. by rewrite String.eqb_refl, Z.eqb_refl.
  - destruct y as [| | | |? [?|]|?|? [[]|]|]; try discriminate H.
    injection H as -> ->. simpl. by rewrite !String.eqb_refl.
  - destruct y as [| | | |? [?|]|?|? [[]|]|]; try discriminate H.
    injection H as ->. simpl. by rewrite String.eqb_refl.
  - destruct y as [| | | |? [l2|]|?|? [[]|]|]; try discriminate H.
    injection H as -> Hl. simpl. rewrite String.eqb_refl. simpl.
    by apply structure_all2.
  - destruct y as [| | | |? [?|]|? fs2|? [[]|]|]; try discriminate H.
    injection H as -> Hl. simpl. rewrite String.eqb_refl. simpl.
    by apply structure_all2.
  - destruct y as [| | | |? [?|]|?|? [[]|]|]; try discriminate H.
    injection H as ->. simpl. by rewrite String.eqb_refl.
  - destruct y as [| | | |? [?|]|?|? [[a2 v2]|]|]; try discriminate H.
    injection H as -> Hv. simpl. rewrite String.eqb_refl. simpl.
    apply orb_true_iff. right. by apply IH.
  - destruct c; [discriminate Hf|].
    destruct y as [| | | |? [?|]|?|? [[]|]|]; try discriminate H.
    injection H as -> <-. simpl. by rewrite String.eqb_refl.
Qed.



(** ** The concrete installation *)

(** The scenario of the design document: with the asset store holding
    "/css/a.css", [GET /static/css/a.css] is answered with status 200, the
    body "body{}" and the content type of a style sheet. *)
Example get_style_sheet :
  ServeHTTP exampleMime exampleSniff
    (registerRoutes (exampleConfig false false)
       (rangeAssets (exampleWorld (exampleConfig false false))
          (static.Assets exampleStore)))
    exampleStore (mkRequest "GET" "/static/css/a.css")
  = Written {| status := Some 200%Z;
               contentType := Some "text/css; charset=utf-8";
               body := bytes_of "body{}" |}.
Proof. vm_compute. reflexivity. Qed.



(** A template that does not parse: the run logs and ends with status 0. *)
Example broken_template_run :
  main exampleParse (exampleWorld (exampleConfig false false)) brokenStore
  = ([Criticalf "unable to using static blob: %v"], Exit 0).
Proof. vm_compute. reflexivity. Qed.

Lemma invalid_template_returns_status_zero_witness :
  static.Templates brokenStore !! "/index.html"
    = Some (bytes_of "<h1>{{.Title</h1>")
  /\ exampleParse (string_of (bytes_of "<h1>{{.Title</h1>")) = None
  /\ main exampleParse (exampleWorld (exampleConfig true false)) brokenStore
     = ([Criticalf "unable to using static blob: %v"], Exit 0).
Proof.
  split; [vm_compute; reflexivity|]. split; [vm_compute; reflexivity|].
  apply (invalid_template_returns_status_zero exampleParse
           (exampleWorld (exampleConfig true false)) brokenStore
           (exampleConfig true false) "/index.html"
           (bytes_of "<h1>{{.Title</h1>")).
  - reflexivity.
  - reflexivity.
  - unfold rangeOf. reflexivity.
  - vm_compute. eexists. reflexivity.
  - intros p [c Hc] ->. vm_compute in Hc. discriminate Hc.
  - vm_compute. reflexivity.
  - vm_compute. reflexivity.
Defined.




Lemma https_server_configuration_witness :
  startsTLS
    (main exampleParse (exampleWorld (exampleConfig true false)) exampleStore).1
    (httpServer (exampleConfig true false)
       (registerRoutes (exampleConfig true false)
          (map_to_list (static.Assets exampleStore)).*1))
  /\ MinVersion (TLSConfig
       (httpServer (exampleConfig true false)
          (registerRoutes (exampleConfig true false)
             (map_to_list (static.Assets exampleStore)).*1))) = 0x0303%Z
  /\ ReadTimeout
       (httpServer (exampleConfig true false)
          (registerRoutes (exampleConfig true false)
             (map_to_list (static.Assets exampleStore)).*1)) = 30000000000%Z.
Proof.
  assert (H : startsTLS
    (main exampleParse (exampleWorld (exampleConfig true false)) exampleStore).1
    (httpServer (exampleConfig true false)
       (registerRoutes (exampleConfig true false)
          (map_to_list (static.Assets exampleStore)).*1))).
  { right. vm_compute. do 3 apply list_elem_of_further. apply list_elem_of_here. }
  split; [exact H|].
  destruct (https_server_configuration exampleParse _ _ _ H)
    as (Hv & _ & _ & _ & _ & _ & _ & Hr & _).
  split; [exact Hv|exact Hr].
Defined.

(** Runs of the concrete installation, by mode. *)
Example plain_run_listeners :
  listenerEvents
    (main exampleParse (exampleWorld (exampleConfig false false)) exampleStore).1
  = [Go (ListenAndServe ":8080"
           (Mux (registerRoutes (exampleConfig false false) ["/css/a.css"])))].
Proof. vm_compute. reflexivity. Qed.

Example secure_run_listeners :
  List.map (fun e => match e with
                     | Go (ListenAndServe _ (HTTPHandler _)) => "go plain"
                     | Call (ListenAndServeTLS _) => "call tls"
                     | _ => "other"
                     end)
    (listenerEvents
       (main exampleParse (exampleWorld (exampleConfig true false))
          exampleStore).1)
  = ["go plain"; "call tls"].
Proof. vm_compute. reflexivity. Qed.

Example wipe_run_listeners :
  main exampleParse (exampleWorld (exampleConfig false true)) exampleStore
  = ([Infof "Attempting to wipe all faucet channels"], Exit 0).
Proof. vm_compute. reflexivity. Qed.

(* ===================================================================== *)
(** * Further properties *)
(* ===================================================================== *)

(** ** The store under sequences of registrations *)

Lemma run_snoc (s : static.storage) (cs : list static.call) (c : static.call) :
  static.run s (cs ++ [c])
  = static.Add (static.run s cs) (static.c_filetype c) (static.c_filepath c)
      (static.c_content c).
Proof. unfold static.run. by rewrite foldl_snoc. Qed.

Lemma run_app (s : static.storage) (cs1 cs2 : list static.call) :
  static.run s (cs1 ++ cs2) = static.run (static.run s cs1) cs2.
Proof. unfold static.run. apply foldl_app. Qed.

(** Registrations that do not target an asset path leave it alone. *)
Lemma run_asset_untouched (s : static.storage) (cs : list static.call)
    (p : string) :
  Forall (fun c => callTarget c <> (true, p)) cs ->
  static.Assets (static.run s cs) !! p = static.Assets s !! p.
Proof.
  revert s. induction cs as [|c cs IH]; intros s Hcs; [done|].
  apply Forall_cons in Hcs as [Hc Hcs]. simpl. rewrite IH by done.
  unfold static.Add, callTarget, static.Assets in *.
  destruct (String.eqb (static.c_filetype c) "static"); simpl; [|done].
  apply lookup_insert_ne. congruence.
Qed.

Lemma run_template_untouched (s : static.storage) (cs : list static.call)
    (p : string) :
  Forall (fun c => callTarget c <> (false, p)) cs ->
  static.Templates (static.run s cs) !! p = static.Templates s !! p.
Proof.
  revert s. induction cs as [|c cs IH]; intros s Hcs; [done|].
  apply Forall_cons in Hcs as [Hc Hcs]. simpl. rewrite IH by done.
  unfold static.Add, callTarget, static.Templates in *.
  destruct (String.eqb (static.c_filetype c) "static"); simpl; [done|].
  apply lookup_insert_ne. congruence.
Qed.

(** X1. After any sequence of registrations, the namespace that a
    registration selects holds its content under its path, provided no
    later registration of the sequence targets the same namespace and
    path: reading returns what was written last. *)
Theorem run_reads_last_registration (s : static.storage)
    (before after : list static.call) (c : static.call) :
  Forall (fun c' => callTarget c' <> callTarget c) after ->
  (if String.eqb (static.c_filetype c) "static"
   then static.Assets (static.run s (before ++ c :: after))
   else static.Templates (static.run s (before ++ c :: after)))
    !! static.c_filepath c = Some (static.c_content c).
Proof.
  intros Hafter. rewrite run_app. simpl.
  pose proof (Add_lookup (static.run s before) (static.c_filetype c)
                (static.c_filepath c) (static.c_content c)) as Hadd.
  unfold callTarget in Hafter.
  destruct (String.eqb (static.c_filetype c) "static") eqn:Hft.
  - rewrite run_asset_untouched; [done|].
    unfold callTarget. exact Hafter.
  - rewrite run_template_untouched; [done|].
    unfold callTarget. exact Hafter.
Qed.

(** X2. Starting from the fresh store, a path is present in the asset
    namespace exactly when some registration with file type "static" named
    it, and present in the template namespace exactly when some
    registration with another file type named it. *)
Theorem fresh_store_holds_only_registered (cs : list static.call) (p : string) :
  (is_Some (static.Assets (static.run static.newStorage cs) !! p)
   <-> Exists (fun c => callTarget c = (true, p)) cs)
  /\ (is_Some (static.Templates (static.run static.newStorage cs) !! p)
   <-> Exists (fun c => callTarget c = (false, p)) cs).
Proof.
  induction cs as [|c cs IH] using rev_ind.
  - simpl. rewrite !lookup_empty, !Exists_nil.
    split; split; intros H; try done; by destruct H.
  - rewrite run_snoc, !Exists_app, !Exists_cons, !Exists_nil.
    destruct IH as [IHa IHt]. unfold static.Add, callTarget.
    destruct (String.eqb (static.c_filetype c) "static"); simpl;
      unfold static.Assets, static.Templates in *; simpl.
    + split.
      * destruct (decide (static.c_filepath c = p)) as [->|Hne].
        -- rewrite lookup_insert_eq. split; [|by eexists]. right. by left.
        -- rewrite lookup_insert_ne by done. rewrite IHa.
           split; [by left|]. intros [H|[H|[]]]; [done|]. congruence.
      * rewrite IHt. split; [by left|]. intros [H|[H|[]]]; [done|].
        discriminate H.
    + split.
      * rewrite IHa. split; [by left|]. intros [H|[H|[]]]; [done|].
        discriminate H.
      * destruct (decide (static.c_filepath c = p)) as [->|Hne].
        -- rewrite lookup_insert_eq. split; [|by eexists]. right. by left.
        -- rewrite lookup_insert_ne by done. rewrite IHt.
           split; [by left|]. intros [H|[H|[]]]; [done|]. congruence.
Qed.

(** X3. Registrations never remove a path: the paths of both namespaces
    before a sequence of registrations are still there after it. *)
Theorem run_never_forgets (s : static.storage) (cs : list static.call) :
  dom (static.Assets s) ⊆ dom (static.Assets (static.run s cs))
  /\ dom (static.Templates s) ⊆ dom (static.Templates (static.run s cs)).
Proof.
  revert s. induction cs as [|c cs IH]; intros s; [done|]. simpl.
  destruct (IH (static.Add s (static.c_filetype c) (static.c_filepath c)
                  (static.c_content c))) as [Ha Ht].
  split; (etrans; [|eassumption]); unfold static.Add;
    destruct (String.eqb (static.c_filetype c) "static"); simpl;
    first [done | apply dom_insert_subseteq].
Qed.

Lemma Add_commute (s : static.storage) (c1 c2 : static.call) :
  callTarget c1 <> callTarget c2 ->
  static.run s [c1; c2] = static.run s [c2; c1].
Proof.
  intros Hne. simpl. unfold static.Add, callTarget in *.
  destruct (String.eqb (static.c_filetype c1) "static"),
           (String.eqb (static.c_filetype c2) "static"); simpl; try done.
  - f_equal. apply insert_insert_ne. congruence.
  - f_equal. apply insert_insert_ne. congruence.
Qed.

(** X4. When no two registrations of a sequence target the same namespace
    and path, the resulting store does not depend on the order in which
    they are made. *)
Theorem run_order_irrelevant (s : static.storage) (cs cs' : list static.call) :
  cs ≡ₚ cs' ->
  NoDup (callTarget <$> cs) ->
  static.run s cs = static.run s cs'.
Proof.
  intros Hperm. revert s.
  induction Hperm as [|c l l' _ IH|c1 c2 l|l l' l'' H1 IH1 H2 IH2];
    intros s Hnd.
  - done.
  - apply NoDup_cons in Hnd as [_ Hnd]. simpl. by apply IH.
  - change (static.run (static.run s [c2; c1]) l
            = static.run (static.run s [c1; c2]) l).
    rewrite (Add_commute s c2 c1); [done|].
    rewrite !fmap_cons in Hnd. apply NoDup_cons in Hnd as [Hnin _].
    intros Heq. apply Hnin. rewrite Heq. apply list_elem_of_here.
  - rewrite IH1 by done. apply IH2. by rewrite <- H1.
Qed.

(** ** The router, beyond the static routes *)

(** No asset route has a path outside "/static". *)
Lemma existsb_staticRoute_other (keys : list string) (path : string) :
  String.prefix "/static" path = false ->
  existsb (fun k => String.eqb (staticRoute k) path) keys = false.
Proof.
  intros Hp. induction keys as [|k keys IH]; [done|].
  cbn [existsb]. rewrite IH.
  rewrite orb_false_r. apply String.eqb_neq. intros <-.
  unfold staticRoute in Hp.
  assert (String.prefix "/static" ("/static" ++ k) = true)
    by (simpl; by destruct k).
  congruence.
Qed.

(** A request that is handled is handled by a route whose path matches. *)
Lemma matchRoutes_Handled (rs : router) (req : request) (b : bool)
    (h : handler) :
  matchRoutes rs req b = Handled h ->
  exists r, r ∈ rs /\ matchPath (r_matcher r) (URLPath req) = true
            /\ r_handler r = h.
Proof.
  revert b. induction rs as [|r rs IH]; intros b; simpl.
  - by destruct b.
  - destruct (matchPath (r_matcher r) (URLPath req)) eqn:Hp.
    + destruct (matchMethod (r_methods r) (Method req)).
      * intros [= <-]. exists r. split; [apply list_elem_of_here|done].
      * intros (r' & Hin & H)%IH. exists r'.
        split; [by apply list_elem_of_further|done].
    + intros (r' & Hin & H)%IH. exists r'.
      split; [by apply list_elem_of_further|done].
Qed.

(** The routes that end in the asset closure are those of the asset keys,
    and there are none in local-directory mode. *)
Lemma asset_routes_of_router (cfg : config) (keys : list string) (r : route) :
  r ∈ registerRoutes cfg keys -> r_handler r = assetHandler ->
  StaticDir cfg = "" /\ exists k, k ∈ keys /\ r_matcher r = Path (staticRoute k).
Proof.
  rewrite registerRoutes_eq. rewrite !elem_of_app, !elem_of_cons, elem_of_nil.
  intros [[->|[->|[]]] | [Ht | Hs]] Hh; try discriminate Hh.
  - destruct (DisableGenerateInvoices cfg && DisablePayInvoices cfg).
    + by apply elem_of_nil in Ht.
    + apply list_elem_of_singleton in Ht as ->. discriminate Hh.
  - destruct (String.eqb (StaticDir cfg) "") eqn:Hd.
    + apply String.eqb_eq in Hd. split; [done|].
      unfold assetRoutes in Hs. apply list_elem_of_In, in_map_iff in Hs
        as (k & <- & Hk). exists k. split; [by apply list_elem_of_In|done].
    + apply list_elem_of_singleton in Hs as ->. discriminate Hh.
Qed.

(** X5. Whatever the configuration and the embedded assets, a request for
    "/" reaches the home page when its method is POST or GET and is
    answered 405 otherwise, and a request for "/info" reaches the info
    page when its method is GET and is answered 405 otherwise. *)
Theorem pages_routed_by_method (cfg : config) (keys : list string)
    (method : string) :
  Match (registerRoutes cfg keys) (mkRequest method "/")
    = (if existsb (String.eqb method) ["POST"; "GET"]
       then Handled faucetHome else MethodNotAllowed)
  /\ Match (registerRoutes cfg keys) (mkRequest method "/info")
    = (if String.eqb method "GET" then Handled infoPage
       else MethodNotAllowed).
Proof.
  rewrite registerRoutes_eq. unfold Match. split.
  - cbn [app matchRoutes matchPath matchMethod r_matcher r_methods r_handler
         URLPath Method String.eqb Ascii.eqb Bool.eqb].
    destruct (existsb (String.eqb method) ["POST"; "GET"]); [done|].
    destruct (DisableGenerateInvoices cfg && DisablePayInvoices cfg);
      destruct (String.eqb (StaticDir cfg) ""); simpl; try done;
      by rewrite matchRoutes_assets, existsb_staticRoute_other.
  - cbn [app matchRoutes matchPath matchMethod r_matcher r_methods r_handler
         URLPath Method String.eqb Ascii.eqb Bool.eqb existsb].
    rewrite orb_false_r.
    destruct (String.eqb method "GET"); [done|].
    destruct (DisableGenerateInvoices cfg && DisablePayInvoices cfg);
      destruct (String.eqb (StaticDir cfg) ""); simpl; try done;
      by rewrite matchRoutes_assets, existsb_staticRoute_other.
Qed.

Section MoreAssets.

Variable TypeByExtension : string -> string.
Variable DetectContentType : bytes -> string.





End MoreAssets.

(** ** The file name of an asset *)

(** The pieces of [Split] but the last, each followed by the separator,
    and then the last piece, spell the string; the last piece holds no
    separator. *)
Lemma Split_last_piece (s : string) (sep : ascii) :
  exists init f,
    Split s sep = (init ++ [f])%list
    /\ existsb (Ascii.eqb sep) (list_ascii_of_string f) = false
    /\ s = foldr (fun piece acc => piece ++ String sep acc) f init.
Proof.
  induction s as [|c s (init & f & HS & Hf & Hs)].
  - exists [], "". done.
  - simpl. destruct (Ascii.eqb c sep) eqn:Hc.
    + apply Ascii.eqb_eq in Hc as ->.
      exists ("" :: init), f. rewrite HS. split; [done|]. split; [done|].
      simpl. by rewrite <- Hs.
    + rewrite HS. destruct init as [|piece init]; simpl.
      * exists [], (String c f). split; [done|]. split.
        -- simpl. rewrite Ascii.eqb_sym, Hc. exact Hf.
        -- simpl in Hs. by rewrite Hs.
      * exists (String c piece :: init), f. split; [done|]. split; [done|].
        simpl in *. by rewrite Hs.
Qed.

Lemma append_assoc (a b c : string) : (a ++ b) ++ c = a ++ (b ++ c).
Proof.
  induction a as [|x a IH]; [done|].
  change (String x ((a ++ b) ++ c) = String x (a ++ (b ++ c))).
  by rewrite IH.
Qed.

Lemma foldr_pieces_dir (sep : ascii) (init : list string) (f : string) :
  exists dir,
    foldr (fun piece acc => piece ++ String sep acc) f init = dir ++ f
    /\ (dir = "" \/ exists d, dir = d ++ String sep "").
Proof.
  induction init as [|piece init (dir & Hd & Hdir)]; simpl.
  - exists "". split; [done|by left].
  - rewrite Hd. destruct Hdir as [-> | [d ->]].
    + exists (piece ++ String sep ""). split; [|right; by exists piece].
      by rewrite append_assoc.
    + exists ((piece ++ String sep d) ++ String sep "").
      split; [|right; by eexists].
      by rewrite !append_assoc.
Qed.

Section FileName.

Variable TypeByExtension : string -> string.
Variable DetectContentType : bytes -> string.

(** X10. The file name that the asset closure hands to [ServeContent] is the
    part of the key after its last slash: the key is a directory part,
    empty or ending in a slash, followed by the file name, and the file
    name holds no slash. *)
Theorem asset_file_name_is_last_path_element (s : static.storage)
    (w : response) (method key : string) (content : bytes) :
  static.Assets s !! key = Some content ->
  exists dir filename,
    key = dir ++ filename
    /\ (dir = "" \/ exists d, dir = d ++ "/")
    /\ existsb (Ascii.eqb "/") (list_ascii_of_string filename) = false
    /\ serveAsset TypeByExtension DetectContentType s w
         (mkRequest method ("/static" ++ key))
       = Some (ServeContent TypeByExtension DetectContentType w
                 (mkRequest method ("/static" ++ key)) filename content).
Proof.
  intros Hc.
  destruct (Split_last_piece key "/") as (init & filename & HS & Hf & Hs).
  destruct (foldr_pieces_dir "/" init filename) as (dir & Hd & Hdir).
  exists dir, filename. split; [congruence|]. split; [exact Hdir|].
  split; [exact Hf|].
  unfold serveAsset. cbn [URLPath]. fold (staticRoute key).
  rewrite sliceFrom_staticRoute. simpl. rewrite HS, last_snoc. simpl.
  by rewrite Hc.
Qed.

End FileName.

(** ** More on the templates of the store *)

Section MoreTemplates.

Context {Tree : Type} (parse : string -> option Tree).

(** With distinct names, the loop yields the same set in every order. *)
Lemma compileTemplates_order (l1 l2 : list (string * bytes))
    (t : gmap string Tree) :
  l1 ≡ₚ l2 ->
  (forall p c, (p, c) ∈ l1 -> p <> "" /\ is_Some (parse (string_of c))) ->
  (forall p c p' c', (p, c) ∈ l1 -> (p', c') ∈ l1 ->
                     sliceFrom 1 p = sliceFrom 1 p' -> p = p' /\ c = c') ->
  exists t', compileTemplates parse t l1 = ([], inl t')
             /\ compileTemplates parse t l2 = ([], inl t')
             /\ (forall n, is_Some (t' !! n) <->
                   is_Some (t !! n)
                   \/ exists p c, (p, c) ∈ l1 /\ sliceFrom 1 p = Some n).
Proof.
  intros Hperm Hok Huniq.
  destruct (compileTemplates_valid parse l1 t Hok) as (t1 & H1 & Hf1 & Hs1).
  destruct (compileTemplates_valid parse l2 t) as (t2 & H2 & Hf2 & Hs2).
  { intros p c Hin. apply Hok. by rewrite Hperm. }
  assert (Hlook : forall n,
    (exists p c, (p, c) ∈ l1 /\ sliceFrom 1 p = Some n
                 /\ t1 !! n = parse (string_of c)
                 /\ t2 !! n = parse (string_of c))
    \/ ((forall p c, (p, c) ∈ l1 -> sliceFrom 1 p <> Some n)
        /\ t1 !! n = t !! n /\ t2 !! n = t !! n)).
  { intros n.
    destruct (decide (Exists (fun pc => sliceFrom 1 pc.1 = Some n) l1))
      as [Hex | Hnex].
    - left. apply Exists_exists in Hex as ([p c] & Hin & Hn). cbn [fst] in Hn.
      exists p, c. split; [done|]. split; [done|]. split.
      + apply (Hs1 p c n Hin Hn). intros p' c' Hin' Hn'.
        destruct (Huniq p c p' c' Hin Hin') as [-> ->]; [congruence|done].
      + apply (Hs2 p c n); [by rewrite <- Hperm|done|].
        intros p' c' Hin' Hn'. rewrite <- Hperm in Hin'.
        destruct (Huniq p c p' c' Hin Hin') as [-> ->]; [congruence|done].
    - right.
      assert (Hno : forall p c, (p, c) ∈ l1 -> sliceFrom 1 p <> Some n).
      { intros p c Hin Hn. apply Hnex, Exists_exists. by exists (p, c). }
      split; [exact Hno|]. split; [by apply Hf1|].
      apply Hf2. intros p c Hin. apply (Hno p c). by rewrite Hperm. }
  assert (t2 = t1) as ->.
  { apply map_eq. intros n.
    destruct (Hlook n) as [(p & c & _ & _ & -> & ->) | (_ & -> & ->)]; done. }
  exists t1. split; [done|]. split; [done|]. intros n.
  destruct (Hlook n) as [(p & c & Hin & Hn & -> & _) | (Hno & -> & _)].
  - split; [intros _; right; by exists p, c|]. intros _.
    by destruct (Hok p c Hin) as [_ ?].
  - split; [by left|]. intros [H | (p & c & Hin & Hn)]; [done|].
    by destruct (Hno p c Hin).
Qed.


(** The loop stops at the first template that does not parse: what follows
    it is not looked at. *)
Lemma compileTemplates_first_invalid (t : gmap string Tree)
    (good rest : list (string * bytes)) (path : string) (content : bytes) :
  (forall p c, (p, c) ∈ good -> p <> "" /\ is_Some (parse (string_of c))) ->
  path <> "" ->
  parse (string_of content) = None ->
  compileTemplates parse t (good ++ (path, content) :: rest)
  = ([Criticalf "unable to using static blob: %v"], inr (Exit 0)).
Proof.
  revert t. induction good as [|[p0 c0] good IH]; intros t Hgood Hne Hbad.
  - cbn [app compileTemplates].
    destruct (sliceFrom_1_nonempty path Hne) as [name ->].
    unfold NewParse. by rewrite Hbad.
  - cbn [app compileTemplates].
    destruct (Hgood p0 c0) as [Hp0 [tree Htree]]; [apply list_elem_of_here|].
    destruct (sliceFrom_1_nonempty p0 Hp0) as [name ->].
    unfold NewParse. rewrite Htree. simpl. apply IH; [|done|done].
    intros p c Hin. apply Hgood. by apply list_elem_of_further.
Qed.

(** An empty path panics when the loop gets to it. *)
Lemma compileTemplates_empty_path (t : gmap string Tree)
    (good rest : list (string * bytes)) (content : bytes) :
  (forall p c, (p, c) ∈ good -> p <> "" /\ is_Some (parse (string_of c))) ->
  compileTemplates parse t (good ++ ("", content) :: rest)
  = ([], inr Panic).
Proof.
  revert t. induction good as [|[p0 c0] good IH]; intros t Hgood.
  - reflexivity.
  - cbn [app compileTemplates].
    destruct (Hgood p0 c0) as [Hp0 [tree Htree]]; [apply list_elem_of_here|].
    destruct (sliceFrom_1_nonempty p0 Hp0) as [name ->].
    unfold NewParse. rewrite Htree. simpl. apply IH.
    intros p c Hin. apply Hgood. by apply list_elem_of_further.
Qed.


End MoreTemplates.

(** ** More on the run of [main] *)

Lemma split_after_head {A : Type} (x e : A) (rest before after : list A) :
  x :: rest = (before ++ e :: after)%list -> e <> x -> x ∉ rest ->
  exists between, before = x :: between /\ (x ∉ between) /\ (x ∉ after).
Proof.
  destruct before as [|b before]; simpl; intros H Hne Hno.
  - injection H as -> _. done.
  - injection H as <- ->. exists before. split; [done|].
    rewrite not_elem_of_app, not_elem_of_cons in Hno. tauto.
Qed.

Section MoreRuns.

Context {Tree : Type} (parse : string -> option Tree).

(** Local-directory mode compiles the fixed glob. *)
Lemma resolveTemplates_local (w : world Tree) (s : static.storage)
    (cfg : config) :
  TemplatesDir cfg <> "" ->
  resolveTemplates parse w s cfg = Must (ParseGlob w "templates/*.html").
Proof.
  intros Hd%String.eqb_neq. unfold resolveTemplates. by rewrite Hd.
Qed.

Lemma registerRoutes_local (cfg : config) (keys : list string) :
  StaticDir cfg <> "" -> registerRoutes cfg keys = registerRoutes cfg [].
Proof. intros Hd%String.eqb_neq. by rewrite !registerRoutes_eq, Hd. Qed.

(** [main] after a successful load of the configuration. *)
Lemma main_loaded (w : world Tree) (s : static.storage) (cfg : config) :
  loadConfig w = Some cfg ->
  main parse w s =
  exec (
    faucetTemplates ← resolveTemplates parse w s cfg;
    (if newLightningFaucet w cfg faucetTemplates then mret tt
     else emit (Criticalf "unable to create faucet: %v");; osExit 1);;
    if WipeChannels cfg
    then
      emit (Infof "Attempting to wipe all faucet channels");;
      (if CloseAllChannels w then mret tt
       else emit (Criticalf "unable to close all the faucet's channels: %v");;
            osExit 1);;
      return_
    else
      emit Start;;
      startListeners w cfg (registerRoutes cfg (rangeAssets w (static.Assets s)));;
      waitInterrupt w).
Proof.
  intros Hcfg. unfold main. rewrite Hcfg. unfold mret, M_ret.
  by rewrite M_bind_ret.
Qed.

(** [main] once the templates are there. *)
Lemma main_resolved (w : world Tree) (s : static.storage) (cfg : config)
    (t : gmap string Tree) :
  loadConfig w = Some cfg ->
  resolveTemplates parse w s cfg = ([], inl t) ->
  main parse w s =
  if newLightningFaucet w cfg t
  then if WipeChannels cfg
       then if CloseAllChannels w
            then ([Infof "Attempting to wipe all faucet channels"], Exit 0)
            else ([Infof "Attempting to wipe all faucet channels";
                   Criticalf "unable to close all the faucet's channels: %v"],
                  Exit 1)
       else exec (emit Start;;
                  startListeners w cfg
                    (registerRoutes cfg (rangeAssets w (static.Assets s)));;
                  waitInterrupt w)
  else ([Criticalf "unable to create faucet: %v"], Exit 1).
Proof.
  intros Hcfg Ht. rewrite (main_loaded w s cfg Hcfg), Ht, M_bind_ret.
  destruct (newLightningFaucet w cfg t); [|reflexivity].
  unfold mret, M_ret. rewrite M_bind_ret.
  destruct (WipeChannels cfg); [|reflexivity].
  destruct (CloseAllChannels w); reflexivity.
Qed.

(** The run from the start of the faucet on. *)
Lemma started_run (w : world Tree) (cfg : config) (r : router) :
  exec (emit Start;; startListeners w cfg r;; waitInterrupt w) =
  if UseLeHTTPS cfg
  then ([Start; Infof ("Listening on " ++ BindAddr cfg);
         Go (ListenAndServe (BindAddr cfg) (HTTPHandler (certManager cfg)));
         Call (ListenAndServeTLS (httpServer cfg r))]
        ++ (if tlsListenerFails w then [Criticalf "%v"] else []),
        if tlsListenerFails w then Exit 1 else Blocked)%list
  else ([Start; Infof ("Listening on " ++ BindAddr cfg);
         Go (ListenAndServe (BindAddr cfg) (Mux r))],
        if interrupt w then Exit 0 else Blocked).
Proof.
  unfold startListeners, waitInterrupt.
  destruct (UseLeHTTPS cfg); simpl.
  - destruct (tlsListenerFails w); reflexivity.
  - destruct (interrupt w); reflexivity.
Qed.

(** X13. With both a templates directory and a static directory configured,
    the run of [main] does not depend on the embedded store. *)
Theorem local_mode_run_ignores_store (w : world Tree) (cfg : config)
    (s s' : static.storage) :
  loadConfig w = Some cfg ->
  TemplatesDir cfg <> "" ->
  StaticDir cfg <> "" ->
  main parse w s = main parse w s'.
Proof.
  intros Hcfg Ht Hs.
  rewrite (main_loaded w s cfg Hcfg), (main_loaded w s' cfg Hcfg).
  rewrite !resolveTemplates_local by done.
  rewrite (registerRoutes_local cfg (rangeAssets w (static.Assets s))) by done.
  by rewrite (registerRoutes_local cfg (rangeAssets w (static.Assets s')))
    by done.
Qed.

(** X14. In local-directory mode the templates are compiled from the fixed
    pattern "templates/*.html": the result depends neither on the name of
    the configured directory nor on the store, and a failure of the glob
    is a panic. *)
Theorem local_templates_ignore_directory_name (w : world Tree)
    (cfg cfg' : config) (s s' : static.storage) :
  TemplatesDir cfg <> "" ->
  TemplatesDir cfg' <> "" ->
  resolveTemplates parse w s cfg = resolveTemplates parse w s' cfg'
  /\ (ParseGlob w "templates/*.html" = None ->
      resolveTemplates parse w s cfg = ([], inr Panic)).
Proof.
  intros H H'. rewrite !resolveTemplates_local by done.
  split; [done|]. by intros ->.
Qed.

(** X15. [main] ends with exit status 1 exactly when the configuration
    loads, the templates resolve, and then the faucet cannot be created,
    or the channel wipe fails, or the TLS listener comes back with an
    error. *)
Theorem exit_status_one_iff (w : world Tree) (s : static.storage) :
  (main parse w s).2 = Exit 1 <->
  exists cfg t,
    loadConfig w = Some cfg
    /\ resolveTemplates parse w s cfg = ([], inl t)
    /\ (newLightningFaucet w cfg t = false
        \/ (newLightningFaucet w cfg t = true /\ WipeChannels cfg = true
            /\ CloseAllChannels w = false)
        \/ (newLightningFaucet w cfg t = true /\ WipeChannels cfg = false
            /\ UseLeHTTPS cfg = true /\ tlsListenerFails w = true)).
Proof.
  split.
  - destruct (loadConfig w) as [cfg|] eqn:Hcfg;
      [|unfold main; rewrite Hcfg; discriminate].
    destruct (resolveTemplates_cases parse w s cfg) as [[t Ht] | [Ht | Ht]].
    + rewrite (main_resolved w s cfg t Hcfg Ht). intros H.
      exists cfg, t. split; [done|]. split; [done|].
      destruct (newLightningFaucet w cfg t); [|by left]. right.
      destruct (WipeChannels cfg).
      * left. destruct (CloseAllChannels w); [discriminate H|done].
      * right. rewrite started_run in H.
        destruct (UseLeHTTPS cfg).
        -- by destruct (tlsListenerFails w).
        -- by destruct (interrupt w).
    + rewrite (main_loaded w s cfg Hcfg), Ht. discriminate.
    + rewrite (main_loaded w s cfg Hcfg), Ht. discriminate.
  - intros (cfg & t & Hcfg & Ht & H).
    rewrite (main_resolved w s cfg t Hcfg Ht).
    destruct H as [-> | [(-> & -> & ->) | (-> & -> & Hs & Hf)]]; try done.
    rewrite started_run, Hs, Hf. done.
Qed.


(** X17. With the channel wipe asked for, a run never starts the faucet or a
    listener and never blocks; it ends with status 0 only after the wipe
    succeeded or after a template of the store failed to parse. *)
Theorem wipe_run_starts_nothing (w : world Tree) (s : static.storage)
    (cfg : config) :
  loadConfig w = Some cfg ->
  WipeChannels cfg = true ->
  (Start ∉ (main parse w s).1)
  /\ listenerEvents (main parse w s).1 = []
  /\ (main parse w s).2 <> Blocked
  /\ ((main parse w s).2 = Exit 0 ->
      main parse w s = ([Infof "Attempting to wipe all faucet channels"], Exit 0)
      \/ main parse w s
         = ([Criticalf "unable to using static blob: %v"], Exit 0)).
Proof.
  intros Hcfg Hw.
  destruct (resolveTemplates_cases parse w s cfg) as [[t Ht] | [Ht | Ht]].
  - rewrite (main_resolved w s cfg t Hcfg Ht), Hw.
    destruct (newLightningFaucet w cfg t); [destruct (CloseAllChannels w)|];
      (split; [simpl; no_start|]); (split; [done|]); (split; [done|]);
      intros H; try discriminate H; by left.
  - rewrite (main_loaded w s cfg Hcfg), Ht.
    split; [simpl; no_start|]. split; [done|]. split; [done|]. discriminate.
  - rewrite (main_loaded w s cfg Hcfg), Ht.
    split; [simpl; no_start|]. split; [done|]. split; [done|]. intros _. by right.
Qed.

(** X18. In secure mode, once the faucet has been started, [main] either
    blocks in the TLS listener or, when that listener comes back, logs its
    error at critical severity and exits with status 1; it never gets to
    wait for the interrupt and never exits with status 0. *)
Theorem secure_run_never_exits_zero (w : world Tree) (s : static.storage)
    (cfg : config) :
  reachesStart parse w s cfg ->
  UseLeHTTPS cfg = true ->
  (main parse w s).2 = (if tlsListenerFails w then Exit 1 else Blocked)
  /\ (tlsListenerFails w = true ->
      last (main parse w s).1 = Some (Criticalf "%v")).
Proof.
  intros Hr Hs. rewrite (main_from_start parse w s cfg Hr), started_run, Hs.
  split; [done|]. by intros ->.
Qed.

(** X19. In plain mode, once the faucet has been started, the run consists
    of the start of the faucet, one log line and the background listener
    on the router; it ends, with status 0, only when an interrupt arrives,
    and no failure of the listener is observed. *)
Theorem plain_run_ends_only_on_interrupt (w : world Tree)
    (s : static.storage) (cfg : config) :
  reachesStart parse w s cfg ->
  UseLeHTTPS cfg = false ->
  main parse w s =
  ([Start; Infof ("Listening on " ++ BindAddr cfg);
    Go (ListenAndServe (BindAddr cfg)
          (Mux (registerRoutes cfg (rangeAssets w (static.Assets s)))))],
   if interrupt w then Exit 0 else Blocked).
Proof.
  intros Hr Hs. by rewrite (main_from_start parse w s cfg Hr), started_run, Hs.
Qed.

(** The shapes of a run of [main]. *)
Lemma main_shapes (w : world Tree) (s : static.storage) :
  (exists cfg, reachesStart parse w s cfg
     /\ main parse w s
        = exec (emit Start;;
                startListeners w cfg
                  (registerRoutes cfg (rangeAssets w (static.Assets s)));;
                waitInterrupt w))
  \/ main parse w s = ([], Exit 0)
  \/ main parse w s = ([], Panic)
  \/ (exists msg code, main parse w s = ([Criticalf msg], Exit code))
  \/ main parse w s
     = ([Infof "Attempting to wipe all faucet channels"], Exit 0)
  \/ (exists msg, main parse w s
     = ([Infof "Attempting to wipe all faucet channels"; Criticalf msg],
        Exit 1)).
Proof.
  destruct (loadConfig w) as [cfg|] eqn:Hcfg;
    [|right; left; unfold main; by rewrite Hcfg].
  destruct (resolveTemplates_cases parse w s cfg) as [[t Ht] | [Ht | Ht]].
  - rewrite (main_resolved w s cfg t Hcfg Ht).
    destruct (newLightningFaucet w cfg t) eqn:Hf;
      [|do 3 right; left; by do 2 eexists].
    destruct (WipeChannels cfg) eqn:Hw.
    + destruct (CloseAllChannels w);
        [do 4 right; by left | do 5 right; by eexists].
    + left. exists cfg. split; [|done]. split; [done|]. split; [|done]. eauto.
  - right; right; left. by rewrite (main_loaded w s cfg Hcfg), Ht.
  - do 3 right; left. rewrite (main_loaded w s cfg Hcfg), Ht. by do 2 eexists.
Qed.

(** X20. A critical log line is always the last event of a run, and the run
    then ends with an exit status: [main] never carries on after logging
    at critical severity. *)
Theorem critical_log_ends_the_run (w : world Tree) (s : static.storage)
    (msg : string) :
  Criticalf msg ∈ (main parse w s).1 ->
  last (main parse w s).1 = Some (Criticalf msg)
  /\ exists code, (main parse w s).2 = Exit code.
Proof.
  destruct (main_shapes w s)
    as [(cfg & _ & ->) | [-> | [-> | [(m & c & ->) | [-> | (m & ->)]]]]].
  - rewrite started_run. destruct (UseLeHTTPS cfg).
    + destruct (tlsListenerFails w); simpl;
        rewrite ?elem_of_cons, elem_of_nil; intros H.
      * destruct H as [H|[H|[H|[H|[H|[]]]]]]; try discriminate H.
        injection H as ->. split; [done|by eexists].
      * destruct H as [H|[H|[H|[H|[]]]]]; discriminate H.
    + simpl. rewrite !elem_of_cons, elem_of_nil.
      intros [H|[H|[H|[]]]]; discriminate H.
  - simpl. by intros ?%elem_of_nil.
  - simpl. by intros ?%elem_of_nil.
  - simpl. intros [=->]%list_elem_of_singleton. split; [done|by eexists].
  - simpl. intros [=]%list_elem_of_singleton.
  - simpl. rewrite !elem_of_cons, elem_of_nil.
    intros [H|[H|[]]]; [discriminate H|]. injection H as ->.
    split; [done|by eexists].
Qed.

(** X21. Whenever a run starts a listener, the faucet was started before,
    as the first event of the run, and it is started only once. *)
Theorem faucet_started_before_listeners (w : world Tree) (s : static.storage)
    (before after : list event) (e : event) :
  (main parse w s).1 = (before ++ e :: after)%list ->
  e ∈ listenerEvents (main parse w s).1 ->
  exists between, before = Start :: between /\ (Start ∉ between)
                  /\ (Start ∉ after).
Proof.
  destruct (main_shapes w s)
    as [(cfg & _ & ->) | [-> | [-> | [(m & c & ->) | [-> | (m & ->)]]]]].
  - rewrite started_run. intros Hsplit He.
    assert (Hrest : exists rest,
      (if UseLeHTTPS cfg
       then ([Start; Infof ("Listening on " ++ BindAddr cfg);
              Go (ListenAndServe (BindAddr cfg) (HTTPHandler (certManager cfg)));
              Call (ListenAndServeTLS
                      (httpServer cfg
                         (registerRoutes cfg
                            (rangeAssets w (static.Assets s)))))]
             ++ (if tlsListenerFails w then [Criticalf "%v"] else []),
             if tlsListenerFails w then Exit 1 else Blocked)%list
       else ([Start; Infof ("Listening on " ++ BindAddr cfg);
              Go (ListenAndServe (BindAddr cfg)
                    (Mux (registerRoutes cfg
                            (rangeAssets w (static.Assets s)))))],
             if interrupt w then Exit 0 else Blocked)).1 = Start :: rest
      /\ (Start ∉ rest)).
    { destruct (UseLeHTTPS cfg); [destruct (tlsListenerFails w)|]; simpl;
        eexists; (split; [reflexivity|no_start]). }
    destruct Hrest as (rest & Hrest & Hno). rewrite Hrest in Hsplit, He.
    apply (split_after_head Start e rest before after Hsplit); [|done].
    intros ->. by apply list_elem_of_In, filter_In in He as [_ He].
  - simpl. by intros _ ?%elem_of_nil.
  - simpl. by intros _ ?%elem_of_nil.
  - simpl. by intros _ ?%elem_of_nil.
  - simpl. by intros _ ?%elem_of_nil.
  - simpl. by intros _ ?%elem_of_nil.
Qed.

End MoreRuns.

(** ** More on deep equality *)

Lemma all2_sym (l1 l2 : list value) :
  Forall (fun x => forall y, DeepEqual x y = DeepEqual y x) l1 ->
  all2 DeepEqual l1 l2 = all2 DeepEqual l2 l1.
Proof.
  intros HP. revert l2. induction HP as [|x l1 Hx _ IH]; intros [|y l2];
    simpl; try done.
  by rewrite Hx, IH.
Qed.

Lemma DeepEqual_sym (x : value) : forall y, DeepEqual x y = DeepEqual y x.
Proof.
  induction x as [|ty b|ty n|ty s|ty|ty l IH|ty fs IH|ty|ty a v IH|ty c]
    using value_nested_ind; intros y;
    destruct y as [| | | |? [?|]|?|? [[]|]|? [?|]]; simpl; try done;
    rewrite (String.eqb_sym ty); try done; f_equal;
    first [ by apply all2_sym | by rewrite N.eqb_sym, IH | apply Z.eqb_sym
          | apply String.eqb_sym | by destruct c
          | match goal with |- Bool.eqb ?a ?b = _ => by destruct a, b end
          | idtac ].
Qed.

Lemma all2_refl (l : list value) :
  Forall (fun x => funcFree x = true -> DeepEqual x x = true) l ->
  forallb funcFree l = true -> all2 DeepEqual l l = true.
Proof.
  induction 1 as [|x l Hx _ IH]; simpl; [done|].
  intros [Hfx Hfl]%andb_true_iff. by rewrite Hx, IH.
Qed.

(** X22. [equal] is symmetric. *)
Theorem equal_symmetric (x y : value) : equal x y = equal y x.
Proof. apply DeepEqual_sym. Qed.



(** ** The further properties on the concrete installation *)

Lemma run_reads_last_registration_witness :
  static.Assets
    (static.run static.newStorage
       [ static.mkCall "static" "/css/a.css" (bytes_of "body{}");
         static.mkCall "static" "/css/a.css" (bytes_of "p{}");
         static.mkCall "template" "/css/a.css" (bytes_of "x") ])
    !! "/css/a.css" = Some (bytes_of "p{}").
Proof.
  apply (run_reads_last_registration static.newStorage
           [static.mkCall "static" "/css/a.css" (bytes_of "body{}")]
           [static.mkCall "template" "/css/a.css" (bytes_of "x")]
           (static.mkCall "static" "/css/a.css" (bytes_of "p{}"))).
  apply List.Forall_cons; [discriminate|apply List.Forall_nil].
Defined.

Lemma run_order_irrelevant_witness :
  static.run static.newStorage
    [ static.mkCall "template" "/index.html" (bytes_of "<h1>{{.Title}}</h1>");
      static.mkCall "static" "/css/a.css" (bytes_of "body{}") ]
  = exampleStore.
Proof.
  apply (run_order_irrelevant static.newStorage
           [ static.mkCall "template" "/index.html"
               (bytes_of "<h1>{{.Title}}</h1>");
             static.mkCall "static" "/css/a.css" (bytes_of "body{}") ]
           [ static.mkCall "static" "/css/a.css" (bytes_of "body{}");
             static.mkCall "template" "/index.html"
               (bytes_of "<h1>{{.Title}}</h1>") ]).
  - apply perm_swap.
  - apply NoDup_cons. split.
    + intros H. apply list_elem_of_singleton in H. discriminate H.
    + apply NoDup_singleton.
Defined.




Lemma asset_file_name_is_last_path_element_witness :
  exists dir filename,
    "/css/a.css" = dir ++ filename
    /\ (dir = "" \/ exists d, dir = d ++ "/")
    /\ existsb (Ascii.eqb "/") (list_ascii_of_string filename) = false
    /\ serveAsset exampleMime exampleSniff exampleStore blank
         (mkRequest "GET" ("/static" ++ "/css/a.css"))
       = Some (ServeContent exampleMime exampleSniff blank
                 (mkRequest "GET" ("/static" ++ "/css/a.css")) filename
                 (bytes_of "body{}")).
Proof.
  apply (asset_file_name_is_last_path_element exampleMime exampleSniff
           exampleStore blank "GET" "/css/a.css" (bytes_of "body{}")).
  vm_compute. reflexivity.
Defined.

(** The entries of the templates of [twoTemplateStore]. *)
Lemma twoTemplateStore_entries (p : string) (c : bytes) :
  static.Templates twoTemplateStore !! p = Some c ->
  (p = "/index.html" /\ c = bytes_of "<h1>{{.Title}}</h1>")
  \/ (p = "/info.html" /\ c = bytes_of "<p>{{.Info}}</p>").
Proof.
  intros H. apply elem_of_map_to_list in H.
  remember (map_to_list (static.Templates twoTemplateStore)) as l eqn:Hl.
  vm_compute in Hl. subst l.
  rewrite !elem_of_cons, elem_of_nil in H.
  destruct H as [H|[H|[]]]; injection H as -> ->; [right|left]; by split.
Qed.



Lemma local_mode_run_ignores_store_witness :
  main exampleParse localWorld exampleStore
  = main exampleParse localWorld brokenStore.
Proof.
  apply (local_mode_run_ignores_store exampleParse localWorld localConfig);
    [reflexivity|discriminate|discriminate].
Defined.

Lemma local_templates_ignore_directory_name_witness :
  resolveTemplates exampleParse localWorld exampleStore localConfig
  = resolveTemplates exampleParse localWorld brokenStore
      (mkConfig "elsewhere" "" false false false false ":80" "").
Proof.
  apply (local_templates_ignore_directory_name exampleParse localWorld
           localConfig
           (mkConfig "elsewhere" "" false false false false ":80" "")
           exampleStore brokenStore); discriminate.
Defined.

Lemma wipe_run_starts_nothing_witness :
  listenerEvents
    (main exampleParse (exampleWorld (exampleConfig true true)) exampleStore).1
  = [].
Proof.
  apply (wipe_run_starts_nothing exampleParse
           (exampleWorld (exampleConfig true true)) exampleStore
           (exampleConfig true true)); reflexivity.
Defined.

Lemma failingTLSWorld_reachesStart :
  reachesStart exampleParse (failingTLSWorld (exampleConfig true false))
    exampleStore (exampleConfig true false).
Proof.
  split; [reflexivity|]. split; [|reflexivity].
  eexists. split; [vm_compute; reflexivity|reflexivity].
Qed.

Lemma exampleWorld_reachesStart :
  reachesStart exampleParse (exampleWorld (exampleConfig false false))
    exampleStore (exampleConfig false false).
Proof.
  split; [reflexivity|]. split; [|reflexivity].
  eexists. split; [vm_compute; reflexivity|reflexivity].
Qed.

Lemma secure_run_never_exits_zero_witness :
  (main exampleParse (failingTLSWorld (exampleConfig true false))
     exampleStore).2 = Exit 1
  /\ last (main exampleParse (failingTLSWorld (exampleConfig true false))
             exampleStore).1 = Some (Criticalf "%v").
Proof.
  destruct (secure_run_never_exits_zero exampleParse
              (failingTLSWorld (exampleConfig true false)) exampleStore
              (exampleConfig true false) failingTLSWorld_reachesStart eq_refl)
    as [H1 H2].
  split; [exact H1|exact (H2 eq_refl)].
Defined.

Lemma plain_run_ends_only_on_interrupt_witness :
  (main exampleParse (exampleWorld (exampleConfig false false))
     exampleStore).2 = Exit 0.
Proof.
  rewrite (plain_run_ends_only_on_interrupt exampleParse
             (exampleWorld (exampleConfig false false)) exampleStore
             (exampleConfig false false) exampleWorld_reachesStart eq_refl).
  reflexivity.
Defined.

Lemma critical_log_ends_the_run_witness :
  last (main exampleParse (exampleWorld (exampleConfig false false))
          brokenStore).1
  = Some (Criticalf "unable to using static blob: %v").
Proof.
  apply (critical_log_ends_the_run exampleParse
           (exampleWorld (exampleConfig false false)) brokenStore).
  vm_compute. apply list_elem_of_here.
Defined.

Lemma faucet_started_before_listeners_witness :
  exists between,
    [Start; Infof "Listening on :8080"] = Start :: between
    /\ (Start ∉ between) /\ (Start ∉ ([] : list event)).
Proof.
  apply (faucet_started_before_listeners exampleParse
           (exampleWorld (exampleConfig false false)) exampleStore
           [Start; Infof "Listening on :8080"] []
           (Go (ListenAndServe ":8080"
                  (Mux (registerRoutes (exampleConfig false false)
                          ["/css/a.css"]))))).
  - vm_compute. reflexivity.
  - vm_compute. apply list_elem_of_here.
Defined.


